(* ===== verification/_CoqProject ===== *)
-Q . S2P
Prelude.v
Numerics.v
Entities.v
Distribution.v
Calibrator.v
DeltaB.v
Engine.v
Quickstart.v
