(* ===== verification/Prelude.v ===== *)
(** * Sprint capacity forecast: a verified model

    This library models the capacity-forecasting engine of the
    [sprint-capacity-forecast] repository and proves it correct.  The
    repository ships the quick-start script [src/examples/quickstart.py],
    which drives the engine of the package [forecast]; the package itself
    is not among the sources, so its components are modelled from the
    specification ([spec.md], sections 3 to 8), and the script is modelled
    from its code.

    ** Parts of the program and how they interact

    Data flows one way: historical observations go to [fit_bias], which
    gives a bias model; the bias model and the observations go to
    [fit_delta_b], which gives the uncertainty factor [delta_b]; a triad,
    the bias model and [delta_b] give a calibrated [Distribution]; and the
    [CommitCapacityEngine] combines the bias model, [delta_b] and per-day
    inputs into daily moments, commit levels and success probabilities.

    ** Files

    - [Prelude] (this file): the result monad of the development with its
      notation, Python-dict lookups on association lists, sums and means
      of rationals and their lemmas, the [forecast] hint database.
    - [Numerics]: the class [MathLib] of the numerical primitives the code
      calls ([math.sqrt], the standard normal CDF and its inverse) with the
      laws the engine relies on, and an executable instance.
    - [Entities]: [ForecastError], [ThreePointEstimate] with its validating
      constructor, [BiasObservation].
    - [Distribution]: the calibrated PERT distribution (mean, variance,
      Beta moment matching).
    - [Calibrator]: the calibrator record, [BiasModel], [alpha_for],
      [fit_bias], [build_distribution].
    - [DeltaB]: coverage and the bisection of [fit_delta_b].
    - [Engine]: [DailyInputs], correlations, [daily_schedule_moments],
      [commit_capacity], [probability_of_success].
    - [Quickstart]: the quick-start script as a function from a [MathLib]
      to the values it prints.

    ** Numbers

    Python floats are modelled as exact rationals [Q]; equalities between
    computed quantities are stated with [Qeq] ([==]).  Rounding is not
    modelled: the spec compares with "floating tolerance" throughout.
    Square roots and the normal distribution are irrational, so they are
    the fields of the class [MathLib]; every theorem that uses them holds
    for every instance satisfying the laws.

    ** What the theorems show

    - Script ([Quickstart]), for every numerical library: the loops print
      what they should ([day_lines_spec], [report_commit_rows],
      [report_success_rows]); the fitted factor meets [fit_delta_b]'s
      contract ([quickstart_delta_b_contract]), and since 90% of five
      observations is all five, it covers every triad observation
      ([quickstart_all_covered]) and is 0 exactly when they are covered
      unwidened ([quickstart_delta_b_zero_iff]); the observation without a
      triad changes e2's bias but not the factor
      ([quickstart_untriaded_obs]); the two-day fixture has the closed-form
      moments of the spec ([quickstart_day1], [quickstart_day2]); the
      success rows are the survival formula of spec 4.3 over the remaining
      days ([quickstart_success_values]) and the [t = 0] commit rows are 0
      ([quickstart_commit_t0]); the script never raises [ValueError]
      ([quickstart_no_domain_error]), its only exception is
      [ConvergenceFailure] with its exact condition ([quickstart_errors]),
      otherwise it runs to its end ([quickstart_completes],
      [quickstart_reports_total]), and the engine it builds is well formed
      ([quickstart_engine_wf]).
    - Engine components: error behaviour of every operation
      ([make_triad_spec], [fit_bias_outcome], [fit_delta_b_error],
      [probability_invalid], [day_moments_outcome]), the functional
      specification of [fit_bias] ([fit_bias_alpha_for]) and its
      permutation invariance up to [bias_equiv] ([fit_bias_perm]), the
      refinement of an abstract contract by [fit_delta_b]
      ([fit_delta_b_refines]), its termination before the iteration cap
      ([fit_delta_b_iter_cap]), the Beta moment-matching round trip
      ([beta_params_roundtrip]) and its limit ([beta_params_pos_iff]), and
      the monotonicity and bounds properties of spec section 8.

    ** Bounds and fuel

    The only loop without a structural bound is the bisection; it is
    [bisect] with the iteration cap as fuel, exactly as the code's
    [for _ in range(max_iter)] with an early [break].  The default
    calibrator (range [[0, 10]], cap 60, tolerance [1e-6]) always stops
    on the tolerance, after at most 24 halvings, since
    [10 / 2^24 < 1e-6] ([fit_delta_b_iter_cap]).  Midpoints are kept in
    lowest terms ([Qred]) so that running the script by [vm_compute]
    stays fast.

    ** Findings

    Modelling showed that the spec's "mean in [[o, p]]" holds only for a
    bias of 1: the calibrated mean lies in [[alpha o, alpha p]]
    ([mean_range]); that the Beta parameters of [sample] are not positive
    once [(1 + delta_b)^2 >= shape + 3], inside [fit_delta_b]'s search
    range ([beta_params_pos_iff]); that with five triad observations the
    target 0.9 demands full coverage ([quickstart_all_covered]); that the
    spec reads [t] both as "first t+1 days" and as "t = 0 gives 0" (the
    model follows the script's reading, [take t]); that a negative
    workload raises even when the achieved capacity exceeds it
    ([probability_invalid]); that the strict growth of the variance in
    [delta_b] needs [o < p] ([variance_strict_mono]); and that the
    iteration cap never ends the search ([fit_delta_b_iter_cap]).

    ** Not modelled

    - The random draws of [Distribution.sample]: the source is a parameter
      ([betavariate]), and [dist.sample(n=5)] on line 38 of the script is
      left out of [quickstart].
    - [math.sqrt] and [statistics.NormalDist]: only their laws are assumed
      (the class [MathLib]); the executable instance [coarse_math] is an
      approximation used to run the script, not a model of the library.
    - Text formatting of [print], the imports, and everything of the
      package that the spec lists as external (persistence, CLI).
*)

From stdpp Require Import base list.
From Stdlib Require Import QArith Qminmax Lqa.

Create HintDb forecast.

(** ** The result monad

    A Python function that may raise is modelled as a function into
    [result E A]: [Ok a] is a normal return, [Err e] an exception. *)

Inductive result (E A : Type) : Type :=
| Ok (a : A)
| Err (e : E).
Arguments Ok {E A} a.
Arguments Err {E A} e.

Definition rbind {E A B} (m : result E A) (k : A -> result E B) : result E B :=
  match m with
  | Ok a => k a
  | Err e => Err e
  end.

Declare Scope result_scope.
Delimit Scope result_scope with result.
Notation "x <- m ;; k" := (rbind m (fun x => k))
  (at level 100, m at next level, right associativity) : result_scope.
Notation "'ensure' b 'or' e ;; k" := (if b then k else Err e)
  (at level 100, b at next level, e at next level, right associativity)
  : result_scope.
Open Scope result_scope.

(** A list comprehension whose body may raise: the first error wins. *)
Fixpoint rmap {E A B} (f : A -> result E B) (l : list A) : result E (list B) :=
  match l with
  | [] => Ok []
  | x :: l' => y <- f x ;; ys <- rmap f l' ;; Ok (y :: ys)
  end.

(** Two computations agree up to [R] on their values and exactly on their
    errors. *)
Definition result_rel {E A} (R : A -> A -> Prop) (m1 m2 : result E A) : Prop :=
  match m1, m2 with
  | Ok a1, Ok a2 => R a1 a2
  | Err e1, Err e2 => e1 = e2
  | _, _ => False
  end.

(** ** Python dicts as association lists

    A dict literal keeps its keys in insertion order; [d[k]] and
    [d.get(k)] return the value stored under [k]. *)

Definition dict_get `{EqDecision K} {V} (k : K) (d : list (K * V)) : option V :=
  snd <$> find (fun kv => bool_decide (kv.1 = k)) d.

Definition dict_keys {K V} (d : list (K * V)) : list K := map fst d.

Definition dict_has `{EqDecision K} {V} (k : K) (d : list (K * V)) : bool :=
  bool_decide (k ∈ dict_keys d).

(** ** Sums and means of rationals *)

Open Scope Q_scope.

(** Python's [sum] over a list of floats. *)
Definition qsum (l : list Q) : Q := fold_right Qplus 0 l.

(** [len(l)] as a rational. *)
Definition qlen {A} (l : list A) : Q := inject_Z (Z.of_nat (length l)).

(** [max(x, 0.0)]: the clamp applied before a square root. *)
Definition clamp0 (x : Q) : Q := Qmax 0 x.

(** [a <= b] and [a < b] on floats, as booleans. *)
Definition qle (a b : Q) : bool := Qle_bool a b.
Definition qlt (a b : Q) : bool := negb (Qle_bool b a).

(** ** Lemmas of the result monad *)

Lemma rbind_Ok {E A B} (m : result E A) (k : A -> result E B) b :
  rbind m k = Ok b <-> exists a, m = Ok a /\ k a = Ok b.
Proof. destruct m; cbn; split; [eauto | intros (? & [=->] & ?); done | done | by intros (? & ? & ?)]. Qed.

Lemma Ok_inj {E A} (a b : A) : @Ok E A a = Ok b -> a = b.
Proof. by intros [= ->]. Qed.

Lemma rbind_Err {E A B} (m : result E A) (k : A -> result E B) e :
  m = Err e -> rbind m k = Err e.
Proof. by intros ->. Qed.

Lemma rmap_length {E A B} (f : A -> result E B) l ys :
  rmap f l = Ok ys -> length ys = length l.
Proof.
  revert ys; induction l as [|x l IH]; cbn; intros ys Hys; [by injection Hys as <-|].
  apply rbind_Ok in Hys as (y & _ & Hys). apply rbind_Ok in Hys as (ys' & Hl & [= <-]).
  cbn. by rewrite (IH _ Hl).
Qed.

(** [rmap] succeeds exactly when every element does. *)
Lemma rmap_Ok_total {E A B} (f : A -> result E B) l :
  (forall x, x ∈ l -> exists y, f x = Ok y) -> exists ys, rmap f l = Ok ys.
Proof.
  induction l as [|x l IH]; intros Hall; [by eexists|].
  destruct (Hall x) as [y Hy]; [by left|].
  destruct IH as [ys Hys]; [intros z Hz; apply Hall; by right|].
  exists (y :: ys). cbn. by rewrite Hy, Hys.
Qed.

(** [rmap f l] returns [ys] exactly when [f] returns [ys]'s elements. *)
Lemma rmap_Ok_iff {E A B} (f : A -> result E B) l ys :
  rmap f l = Ok ys <-> Forall2 (fun x y => f x = Ok y) l ys.
Proof.
  revert ys; induction l as [|x l IH]; intros ys; cbn.
  - split; [intros [= <-]; constructor | intros H; inversion H; done].
  - split.
    + intros H. apply rbind_Ok in H as (y & Hy & H). apply rbind_Ok in H as (ys' & Hl & [= <-]).
      constructor; [done|]. by apply IH.
    + intros H. inversion H as [|? y ? ys' Hy Hl]; subst. rewrite Hy. cbn.
      apply IH in Hl. by rewrite Hl.
Qed.

(** When [f] raises only [e], [rmap f l] raises [e] as soon as one element
    does. *)
Lemma rmap_Err_of {E A B} (f : A -> result E B) l e :
  (forall x, x ∈ l -> (exists y, f x = Ok y) \/ f x = Err e) ->
  (exists x, x ∈ l /\ f x = Err e) -> rmap f l = Err e.
Proof.
  induction l as [|x l IH]; intros Hall (z & Hz & Hze); [by apply elem_of_nil in Hz|].
  cbn. destruct (Hall x (list_elem_of_here x l)) as [[y Hy] | Hx]; [|by rewrite Hx].
  rewrite Hy. cbn. apply elem_of_cons in Hz as [-> | Hz]; [congruence|].
  rewrite IH; [done| |by exists z]. intros w Hw. apply Hall. by apply list_elem_of_further.
Qed.

(** Unfold the [Ok] branches of a chain of binds in a hypothesis. *)
Ltac inv_ok :=
  repeat match goal with
  | H : rbind _ _ = Ok _ |- _ =>
      apply rbind_Ok in H; destruct H as (? & ? & H)
  | H : Ok _ = Ok _ |- _ => apply Ok_inj in H
  | H : Err _ = Ok _ |- _ => discriminate H
  | H : (if ?b then _ else Err _) = Ok _ |- _ =>
      let Hb := fresh "Hb" in destruct b eqn:Hb; [|discriminate H]
  end.

Lemma forallb_perm {A} (f : A -> bool) l1 l2 : l1 ≡ₚ l2 -> forallb f l1 = forallb f l2.
Proof.
  induction 1; cbn; [done|by f_equal| |congruence].
  by rewrite !andb_assoc, (andb_comm (f y)).
Qed.

Lemma dict_get_cons `{EqDecision K} {V} (k k' : K) (v : V) d :
  dict_get k ((k', v) :: d) = if bool_decide (k' = k) then Some v else dict_get k d.
Proof. unfold dict_get. cbn. by destruct (bool_decide (k' = k)). Qed.

(** A key the dict has can be looked up. *)
Lemma dict_get_has `{EqDecision K} {V} (k : K) (d : list (K * V)) :
  dict_has k d = true -> exists v, dict_get k d = Some v.
Proof.
  unfold dict_has, dict_keys. rewrite bool_decide_eq_true.
  induction d as [|[k' v] d IH]; intros Hk.
  { by apply elem_of_nil in Hk. }
  cbn [map fst] in Hk. rewrite dict_get_cons. case_bool_decide as Heq; [by eexists|].
  apply IH. apply elem_of_cons in Hk as [->|Hk]; [done|exact Hk].
Qed.

(** A value found under a key is stored under that key. *)
Lemma dict_get_elem `{EqDecision K} {V} (k : K) (v : V) d :
  dict_get k d = Some v -> (k, v) ∈ d.
Proof.
  induction d as [|[k' v'] d IH]; [discriminate|]. rewrite dict_get_cons, elem_of_cons.
  case_bool_decide as Heq; [intros [= <-]; subst; by left|intros; right; auto].
Qed.

(** ** Boolean comparisons *)

Lemma qle_spec a b : qle a b = true <-> a <= b.
Proof. apply Qle_bool_iff. Qed.

Lemma qlt_spec a b : qlt a b = true <-> a < b.
Proof.
  unfold qlt. rewrite negb_true_iff. split; intros H.
  - apply Qnot_le_lt. intros Hle. apply Qle_bool_iff in Hle. congruence.
  - destruct (Qle_bool b a) eqn:E; [|done]. apply Qle_bool_iff in E. lra.
Qed.

Lemma qle_false a b : qle a b = false <-> b < a.
Proof.
  rewrite <- not_true_iff_false, qle_spec. split; [apply Qnot_le_lt | intros; lra].
Qed.

Lemma qlt_false a b : qlt a b = false <-> b <= a.
Proof.
  rewrite <- not_true_iff_false, qlt_spec. split; [apply Qnot_lt_le | intros; lra].
Qed.

(** Turn the boolean comparisons of a model into propositions. *)
Ltac qbool :=
  repeat match goal with
  | H : qle _ _ = true |- _ => apply qle_spec in H
  | H : qle _ _ = false |- _ => apply qle_false in H
  | H : qlt _ _ = true |- _ => apply qlt_spec in H
  | H : qlt _ _ = false |- _ => apply qlt_false in H
  | H : (_ && _)%bool = true |- _ => apply andb_true_iff in H as [? ?]
  end.

(** Close a comparison between rational constants by computation. *)
Ltac qcompute := vm_compute; first [reflexivity | discriminate | intros ?; discriminate].

(** ** Squares *)

Lemma qsquare_nonneg x : 0 <= x * x.
Proof. destruct (Qlt_le_dec x 0); nra. Qed.

#[export] Hint Resolve qsquare_nonneg : forecast.

Lemma pow2_pos n : 0 < inject_Z (2 ^ Z.of_nat n).
Proof.
  unfold Qlt; cbn [Qnum Qden inject_Z]. pose proof (Z.pow_pos_nonneg 2 (Z.of_nat n)). lia.
Qed.

Lemma pow2_S n : inject_Z (2 ^ Z.of_nat (S n)) == 2 * inject_Z (2 ^ Z.of_nat n).
Proof. rewrite Nat2Z.inj_succ, Z.pow_succ_r by lia. by rewrite inject_Z_mult. Qed.

(** ** Sums *)

Lemma qsum_cons x l : qsum (x :: l) = x + qsum l.
Proof. done. Qed.

Lemma qsum_app l1 l2 : qsum (l1 ++ l2) == qsum l1 + qsum l2.
Proof. unfold qsum. induction l1 as [|x l IH]; cbn; [ring|]. rewrite IH. ring. Qed.

Lemma qsum_nonneg l : Forall (Qle 0) l -> 0 <= qsum l.
Proof. unfold qsum. induction 1; cbn; lra. Qed.

Lemma qsum_pos l : l <> [] -> Forall (Qlt 0) l -> 0 < qsum l.
Proof.
  intros Hne Hall. destruct Hall as [|x l Hx Hall]; [done|]. rewrite qsum_cons.
  enough (0 <= qsum l) by lra. apply qsum_nonneg.
  eapply Forall_impl; [exact Hall|]. intros; cbn; lra.
Qed.

Lemma qsum_le l1 l2 : Forall2 Qle l1 l2 -> qsum l1 <= qsum l2.
Proof. unfold qsum. induction 1; cbn; lra. Qed.

#[export] Instance qsum_proper : Proper (Forall2 Qeq ==> Qeq) qsum.
Proof. intros l1 l2 H. unfold qsum. induction H; cbn; [done|]. lra. Qed.

(** Python's [sum] does not depend on the order of its argument. *)
Lemma qsum_perm l1 l2 : l1 ≡ₚ l2 -> qsum l1 == qsum l2.
Proof. unfold qsum. induction 1; cbn; lra. Qed.

Lemma qsum_take_drop n l : qsum (take n l) + qsum (drop n l) == qsum l.
Proof. rewrite <- qsum_app, take_drop. reflexivity. Qed.

Lemma qlen_nonneg {A} (l : list A) : 0 <= qlen l.
Proof. unfold qlen, Qle; cbn. lia. Qed.

Lemma qlen_pos {A} (l : list A) : l <> [] -> 0 < qlen l.
Proof. destruct l; [done|]. intros _. unfold qlen, Qlt; cbn. lia. Qed.

Lemma qlen_le {A B} (l1 : list A) (l2 : list B) :
  (length l1 <= length l2)%nat -> qlen l1 <= qlen l2.
Proof. intros H. unfold qlen. rewrite <- Zle_Qle. lia. Qed.

(** Counting with a weaker test counts at least as many elements. *)
Lemma count_filter_mono {A} (f g : A -> bool) l :
  (forall x, In x l -> f x = true -> g x = true) ->
  (length (List.filter f l) <= length (List.filter g l))%nat.
Proof.
  induction l as [|x l IH]; intros Hfg; cbn; [done|].
  assert (IH' : (length (List.filter f l) <= length (List.filter g l))%nat)
    by (apply IH; intros y Hy; apply Hfg; by right).
  destruct (f x) eqn:Ef; [rewrite (Hfg x (or_introl eq_refl) Ef); cbn; lia|].
  destruct (g x); cbn; lia.
Qed.

(** The filter keeps every element exactly when every element passes. *)
Lemma filter_length_full {A} (f : A -> bool) l :
  length (List.filter f l) = length l <-> Forall (fun x => f x = true) l.
Proof.
  induction l as [|x l IH]; cbn; [split; [constructor|done]|].
  rewrite Forall_cons. pose proof (count_filter_mono f (fun _ => true) l) as Hle.
  rewrite List.filter_true in Hle. destruct (f x).
  - cbn. rewrite <- IH. lia.
  - split; [|intros [? _]; discriminate]. intros Hl. exfalso.
    assert (length (List.filter f l) <= length l)%nat by (apply Hle; done). lia.
Qed.

Lemma qlen_perm {A} (l1 l2 : list A) : l1 ≡ₚ l2 -> qlen l1 = qlen l2.
Proof. intros H. unfold qlen. by rewrite (Permutation_length H). Qed.

(** ** The clamp *)

Lemma clamp0_nonneg x : 0 <= clamp0 x.
Proof. apply Q.le_max_l. Qed.

Lemma clamp0_id x : 0 <= x -> clamp0 x == x.
Proof. apply Q.max_r. Qed.

Lemma clamp0_mono x y : x <= y -> clamp0 x <= clamp0 y.
Proof. apply Q.max_le_compat_l. Qed.

#[export] Instance clamp0_proper : Proper (Qeq ==> Qeq) clamp0.
Proof. intros x y H. unfold clamp0. by rewrite H. Qed.

#[export] Hint Resolve qsum_nonneg qlen_nonneg clamp0_nonneg clamp0_mono : forecast.
