(* ===== verification/Numerics.v ===== *)
(** * Numerics: the numerical primitives the engine calls

    The engine calls [math.sqrt] and the standard normal distribution
    ([NormalDist().cdf], [NormalDist().inv_cdf]).  Their values are
    irrational, so this file states them as the class [MathLib]: the three
    functions with the laws the engine's correctness depends on
    (monotonicity, range, [sqrt 0 = 0], [inv_cdf 0.5 = 0]).  The engine's
    theorems are proved for every instance.

    [coarse_math] is an executable instance: a square root truncated to six
    decimals and the normal CDF linearised at 0 and clamped to [0,1].  It
    satisfies the laws, so it serves to run the model on concrete inputs;
    its values are close to, but not equal to, the library's. *)

From stdpp Require Import base list.
From Stdlib Require Import QArith Qminmax Qround Lqa.
From S2P Require Import Prelude.

Open Scope Q_scope.

Class MathLib := {
  math_sqrt : Q -> Q;
  normal_cdf : Q -> Q;
  normal_inv_cdf : Q -> Q;
  math_sqrt_proper : Proper (Qeq ==> Qeq) math_sqrt;
  math_sqrt_nonneg : forall x, 0 <= math_sqrt x;
  math_sqrt_mono : forall x y, 0 <= x -> x <= y -> math_sqrt x <= math_sqrt y;
  math_sqrt_zero : math_sqrt 0 == 0;
  normal_cdf_proper : Proper (Qeq ==> Qeq) normal_cdf;
  normal_cdf_mono : forall x y, x <= y -> normal_cdf x <= normal_cdf y;
  normal_cdf_range : forall x, 0 <= normal_cdf x <= 1;
  normal_inv_cdf_proper : Proper (Qeq ==> Qeq) normal_inv_cdf;
  normal_inv_cdf_mono :
    forall p q, 0 < p -> p <= q -> q < 1 -> normal_inv_cdf p <= normal_inv_cdf q;
  normal_inv_cdf_half : normal_inv_cdf (1#2) == 0
}.

#[export] Existing Instances math_sqrt_proper normal_cdf_proper normal_inv_cdf_proper.

Section WithMath.
Context `{MathLib}.

(** [math.sqrt(max(var, 0.0))]: a standard deviation from a variance that
    may be slightly negative. *)
Definition sd_of (var : Q) : Q := math_sqrt (clamp0 var).

(** The two-sided normal quantile of a central coverage [c]: the interval
    [mean +- z * sd] holds probability mass [c]. *)
Definition z_two_sided (c : Q) : Q := normal_inv_cdf ((1 + c) / 2).

(** [z(alpha)], the quantile of [1 - alpha]. *)
Definition z_upper (alpha : Q) : Q := normal_inv_cdf (1 - alpha).

#[export] Instance sd_of_proper : Proper (Qeq ==> Qeq) sd_of.
Proof. intros x y Hxy. unfold sd_of. by rewrite Hxy. Qed.

Lemma sd_of_nonneg v : 0 <= sd_of v.
Proof. apply math_sqrt_nonneg. Qed.

Lemma sd_of_mono v w : v <= w -> sd_of v <= sd_of w.
Proof. intros. apply math_sqrt_mono; auto with forecast. Qed.

Lemma sd_of_zero : sd_of 0 == 0.
Proof. unfold sd_of, clamp0. rewrite Q.max_id. apply math_sqrt_zero. Qed.

(** The two-sided quantile is non-negative for a coverage in [[0, 1)]. *)
Lemma z_two_sided_nonneg c : 0 <= c -> c < 1 -> 0 <= z_two_sided c.
Proof.
  intros. unfold z_two_sided. rewrite <- normal_inv_cdf_half.
  apply normal_inv_cdf_mono; [lra| |]; apply Qle_shift_div_l || apply Qlt_shift_div_r; lra.
Qed.

(** [z(alpha)] decreases as [alpha] increases over [(0,1)]. *)
Lemma z_upper_anti a b : 0 < a -> a <= b -> b < 1 -> z_upper b <= z_upper a.
Proof. intros. unfold z_upper. apply normal_inv_cdf_mono; lra. Qed.

Lemma z_upper_nonneg a : 0 < a -> a <= 1#2 -> 0 <= z_upper a.
Proof.
  intros. unfold z_upper. rewrite <- normal_inv_cdf_half.
  apply normal_inv_cdf_mono; lra.
Qed.

(** The normal survival function [1 - cdf] is antitone. *)
Lemma survival_anti x y : x <= y -> 1 - normal_cdf y <= 1 - normal_cdf x.
Proof. intros Hxy. pose proof (normal_cdf_mono x y Hxy). lra. Qed.

Lemma survival_range x : 0 <= 1 - normal_cdf x <= 1.
Proof. pose proof (normal_cdf_range x). lra. Qed.

End WithMath.

#[export] Hint Resolve sd_of_nonneg sd_of_mono survival_range : forecast.

(** ** An executable instance *)

(** Six decimals: [coarse_sqrt x] is [floor(sqrt x * 10^6) / 10^6]. *)
Definition coarse_scale : Z := 1000000.

Definition coarse_sqrt (x : Q) : Q :=
  inject_Z (Z.sqrt (Qfloor (x * inject_Z (coarse_scale * coarse_scale))))
  / inject_Z coarse_scale.

(** [Phi(x)] linearised at 0 ([Phi'(0)] is about 0.4) and clamped. *)
Definition coarse_cdf (x : Q) : Q := Qmax 0 (Qmin 1 (0.5 + 0.4 * x)).

(** The inverse of the linear part of [coarse_cdf]. *)
Definition coarse_inv_cdf (p : Q) : Q := (p - 0.5) * 2.5.

Lemma coarse_scale_pos : 0 < inject_Z coarse_scale.
Proof. reflexivity. Qed.

Lemma coarse_sqrt_mono x y : x <= y -> coarse_sqrt x <= coarse_sqrt y.
Proof.
  intros Hxy. unfold coarse_sqrt, Qdiv.
  apply Qmult_le_compat_r; [|apply Qinv_le_0_compat; discriminate].
  rewrite <- Zle_Qle. apply Z.sqrt_le_mono, Qfloor_resp_le.
  apply Qmult_le_compat_r; [done|discriminate].
Qed.

#[export] Instance coarse_sqrt_proper : Proper (Qeq ==> Qeq) coarse_sqrt.
Proof. intros x y Hxy. unfold coarse_sqrt. by rewrite Hxy. Qed.

Lemma coarse_sqrt_nonneg x : 0 <= coarse_sqrt x.
Proof.
  unfold coarse_sqrt. apply Qle_shift_div_l; [reflexivity|].
  rewrite Qmult_0_l. change (inject_Z 0 <= inject_Z (Z.sqrt (Qfloor
    (x * inject_Z (coarse_scale * coarse_scale))))).
  rewrite <- Zle_Qle. apply Z.sqrt_nonneg.
Qed.

#[export] Instance coarse_cdf_proper : Proper (Qeq ==> Qeq) coarse_cdf.
Proof. intros x y Hxy. unfold coarse_cdf. by rewrite Hxy. Qed.

Lemma coarse_cdf_mono x y : x <= y -> coarse_cdf x <= coarse_cdf y.
Proof.
  intros Hxy. unfold coarse_cdf.
  apply Q.max_le_compat_l, Q.min_le_compat_l. lra.
Qed.

Lemma coarse_cdf_range x : 0 <= coarse_cdf x <= 1.
Proof.
  unfold coarse_cdf. split; [apply Q.le_max_l|].
  apply Q.max_lub; [discriminate|apply Q.le_min_l].
Qed.

#[export] Instance coarse_inv_cdf_proper : Proper (Qeq ==> Qeq) coarse_inv_cdf.
Proof. intros x y Hxy. unfold coarse_inv_cdf. by rewrite Hxy. Qed.

Lemma coarse_inv_cdf_mono p q :
  0 < p -> p <= q -> q < 1 -> coarse_inv_cdf p <= coarse_inv_cdf q.
Proof. intros. unfold coarse_inv_cdf. lra. Qed.

#[export] Instance coarse_math : MathLib := {|
  math_sqrt := coarse_sqrt;
  normal_cdf := coarse_cdf;
  normal_inv_cdf := coarse_inv_cdf;
  math_sqrt_nonneg := coarse_sqrt_nonneg;
  math_sqrt_mono := fun x y _ => coarse_sqrt_mono x y;
  math_sqrt_zero := eq_refl;
  normal_cdf_mono := coarse_cdf_mono;
  normal_cdf_range := coarse_cdf_range;
  normal_inv_cdf_mono := coarse_inv_cdf_mono;
  normal_inv_cdf_half := eq_refl
|}.
