(* ===== verification/Entities.v ===== *)
(** * Entities: the value types of the [forecast] package

    [ForecastError] lists the exception kinds of spec section 7;
    [ThreePointEstimate] is a triad (optimistic, most likely, pessimistic)
    whose constructor [make_triad] rejects a violated ordering;
    [BiasObservation] is one historical sample, with an optional triad, as
    the quick-start script builds it with [BiasObservation(engineer_id,
    modal_estimate_hours=..., actual_hours=..., optimistic_hours=...,
    most_likely_hours=..., pessimistic_hours=...)]. *)

From stdpp Require Import base list strings.
From Stdlib Require Import QArith Lqa.
From S2P Require Import Prelude.

Open Scope Q_scope.

(** The exception kinds.  [UnknownEstimator] is absent on purpose: the
    spec turns an unknown estimator into the neutral bias 1.0, never an
    error. *)
Inductive ForecastError : Type :=
| InvalidTriad
| InvalidObservation
| ConvergenceFailure
| DimensionMismatch
| InvalidParameter.

#[export] Instance ForecastError_eq_dec : EqDecision ForecastError.
Proof. solve_decision. Qed.

Abbreviation fresult := (result ForecastError).

(** ** Three-point estimates *)

Record ThreePointEstimate : Type := {
  optimistic : Q;
  most_likely : Q;
  pessimistic : Q
}.

(** The constructor's check: [0 <= o <= m <= p]. *)
Definition triad_ok (o m p : Q) : bool := qle 0 o && qle o m && qle m p.

(** [ThreePointEstimate(o, m, p)]: raises [InvalidTriad] on a violated
    triad instead of clamping it. *)
Definition make_triad (o m p : Q) : fresult ThreePointEstimate :=
  ensure triad_ok o m p or InvalidTriad ;;
  Ok {| optimistic := o; most_likely := m; pessimistic := p |}.

(** The invariant every constructed triad satisfies. *)
Definition triad_wf (t : ThreePointEstimate) : Prop :=
  0 <= optimistic t /\ optimistic t <= most_likely t /\ most_likely t <= pessimistic t.

(** ** Historical observations *)

Record BiasObservation : Type := {
  engineer_id : string;
  modal_estimate_hours : Q;
  actual_hours : Q;
  obs_triad : option ThreePointEstimate
}.

(** [BiasObservation(...)]: the triad is built, and validated, when its
    three hours are given; otherwise the observation carries no triad. *)
Definition make_observation (eid : string) (modal actual : Q)
    (o m p : option Q) : fresult BiasObservation :=
  match o, m, p with
  | Some o, Some m, Some p =>
      t <- make_triad o m p ;;
      Ok {| engineer_id := eid; modal_estimate_hours := modal;
            actual_hours := actual; obs_triad := Some t |}
  | _, _, _ =>
      Ok {| engineer_id := eid; modal_estimate_hours := modal;
            actual_hours := actual; obs_triad := None |}
  end.

(** ** Lemmas *)

Lemma triad_ok_spec o m p : triad_ok o m p = true <-> 0 <= o /\ o <= m /\ m <= p.
Proof.
  unfold triad_ok. rewrite !andb_true_iff, !qle_spec. tauto.
Qed.

Lemma make_triad_wf o m p t : make_triad o m p = Ok t -> triad_wf t.
Proof.
  unfold make_triad. intros H. inv_ok. subst t.
  apply triad_ok_spec in Hb. exact Hb.
Qed.

Lemma triad_wf_le t : triad_wf t -> optimistic t <= pessimistic t.
Proof. unfold triad_wf. lra. Qed.

#[export] Hint Resolve make_triad_wf triad_wf_le : forecast.

(** C6: the triad constructor accepts exactly the triads with
    [0 <= o <= m <= p], keeping their fields, and raises [InvalidTriad]
    on every other one: a violated triad is rejected, never clamped. *)
Theorem make_triad_spec o m p :
  (0 <= o /\ o <= m /\ m <= p ->
   make_triad o m p = Ok {| optimistic := o; most_likely := m; pessimistic := p |}) /\
  (~ (0 <= o /\ o <= m /\ m <= p) -> make_triad o m p = Err InvalidTriad).
Proof.
  unfold make_triad. rewrite <- triad_ok_spec.
  destruct (triad_ok o m p); split; intros H; done || by exfalso.
Qed.

(** ** Witnesses *)

Lemma make_triad_spec_witness :
  make_triad 5 8 14 = Ok {| optimistic := 5; most_likely := 8; pessimistic := 14 |} /\
  make_triad 5 20 14 = Err InvalidTriad.
Proof.
  split; [apply (make_triad_spec 5 8 14) | apply (make_triad_spec 5 20 14)].
  - split_and!; qcompute.
  - intros (_ & _ & H). vm_compute in H. exact (H eq_refl).
Defined.
