(* ===== verification/Distribution.v ===== *)
(** * Distribution: the calibrated PERT distribution (spec 4.1)

    A [Distribution] is derived data: a triad, the estimator's bias
    [alpha], the uncertainty factor [delta_b] and the peakedness [shape].
    [mean] and [variance] are the calibrated moments; [beta_params] is the
    Beta moment matching [sample] uses, and [sample] threads an injectable
    random source explicitly. *)

From stdpp Require Import base list.
From Stdlib Require Import QArith Lqa.
From S2P Require Import Prelude Entities.

Open Scope Q_scope.

Record Distribution : Type := {
  dist_triad : ThreePointEstimate;
  dist_alpha : Q;
  dist_delta_b : Q;
  dist_shape : Q
}.

(** [mean0 = (o + shape * m + p) / (shape + 2)]. *)
Definition pert_mean0 (t : ThreePointEstimate) (shape : Q) : Q :=
  (optimistic t + shape * most_likely t + pessimistic t) / (shape + 2).

(** [variance0 = (mean0 - o) * (p - mean0) / (shape + 3)]. *)
Definition pert_var0 (t : ThreePointEstimate) (shape : Q) : Q :=
  (pert_mean0 t shape - optimistic t) * (pessimistic t - pert_mean0 t shape)
  / (shape + 3).

(** [Distribution.mean()]: the base mean times the bias. *)
Definition mean (d : Distribution) : Q :=
  pert_mean0 (dist_triad d) (dist_shape d) * dist_alpha d.

(** [Distribution.variance()]: the base variance times [(1 + delta_b)^2]. *)
Definition variance (d : Distribution) : Q :=
  pert_var0 (dist_triad d) (dist_shape d) * ((1 + dist_delta_b d) * (1 + dist_delta_b d)).

(** The well-formedness of a distribution the calibrator builds: a valid
    triad, a positive bias, a non-negative factor and shape. *)
Definition dist_wf (d : Distribution) : Prop :=
  triad_wf (dist_triad d) /\ 0 < dist_alpha d /\ 0 <= dist_delta_b d /\ 0 <= dist_shape d.

(** Beta moment matching on [[o, p]]: the base mean and the calibrated
    variance, rescaled to [[0, 1]], give [k = mu (1 - mu) / v - 1] and the
    parameters [(mu k, (1 - mu) k)]. *)
Definition beta_params (d : Distribution) : Q * Q :=
  let t := dist_triad d in
  let w := pessimistic t - optimistic t in
  let mu := (pert_mean0 t (dist_shape d) - optimistic t) / w in
  let v := variance d / (w * w) in
  let k := mu * (1 - mu) / v - 1 in
  (mu * k, (1 - mu) * k).

(** [Distribution.sample(n)] with the random source made explicit:
    [betavariate a b s] is one Beta(a, b) draw from the source in state
    [s] and the next state.  Each draw is rescaled to [[o, p]] and scaled
    by the bias. *)
Fixpoint sample {S} (betavariate : Q -> Q -> S -> Q * S) (d : Distribution)
    (n : nat) (s : S) : list Q * S :=
  match n with
  | O => ([], s)
  | S n' =>
      let '(a, b) := beta_params d in
      let '(x, s1) := betavariate a b s in
      let t := dist_triad d in
      let y := (optimistic t + x * (pessimistic t - optimistic t)) * dist_alpha d in
      let '(ys, s2) := sample betavariate d n' s1 in
      (y :: ys, s2)
  end.

(** Two distributions are equivalent when they have the same triad and
    equal parameters. *)
Definition dist_equiv (d1 d2 : Distribution) : Prop :=
  dist_triad d1 = dist_triad d2 /\ dist_alpha d1 == dist_alpha d2 /\
  dist_delta_b d1 == dist_delta_b d2 /\ dist_shape d1 == dist_shape d2.

#[export] Instance dist_equiv_equiv : Equivalence dist_equiv.
Proof.
  unfold dist_equiv. split.
  - intros d. split_and!; reflexivity.
  - intros d1 d2 (? & ? & ? & ?). split_and!; by symmetry.
  - intros d1 d2 d3 (? & ? & ? & ?) (? & ? & ? & ?).
    split_and!; (etransitivity; [eassumption|eassumption]).
Qed.

#[export] Instance pert_mean0_proper t : Proper (Qeq ==> Qeq) (pert_mean0 t).
Proof. intros s1 s2 Hs. unfold pert_mean0. by rewrite Hs. Qed.

#[export] Instance pert_var0_proper t : Proper (Qeq ==> Qeq) (pert_var0 t).
Proof. intros s1 s2 Hs. unfold pert_var0. by rewrite Hs. Qed.

#[export] Instance mean_proper : Proper (dist_equiv ==> Qeq) mean.
Proof.
  intros d1 d2 (Ht & Ha & _ & Hs). unfold mean. by rewrite Ht, Ha, Hs.
Qed.

#[export] Instance variance_proper : Proper (dist_equiv ==> Qeq) variance.
Proof.
  intros d1 d2 (Ht & _ & Hd & Hs). unfold variance. by rewrite Ht, Hd, Hs.
Qed.

(** ** The base PERT moments of a valid triad *)

Section Pert.
Context (t : ThreePointEstimate) (shape : Q).
Hypothesis Hwf : triad_wf t.
Hypothesis Hshape : 0 <= shape.

Lemma pert_mean0_ge : optimistic t <= pert_mean0 t shape.
Proof.
  destruct Hwf as (? & ? & ?). unfold pert_mean0.
  apply Qle_shift_div_l; nra.
Qed.

Lemma pert_mean0_le : pert_mean0 t shape <= pessimistic t.
Proof.
  destruct Hwf as (? & ? & ?). unfold pert_mean0.
  apply Qle_shift_div_r; nra.
Qed.

Lemma pert_mean0_gt : optimistic t < pessimistic t -> optimistic t < pert_mean0 t shape.
Proof.
  destruct Hwf as (? & ? & ?). intros. unfold pert_mean0.
  apply Qlt_shift_div_l; nra.
Qed.

Lemma pert_mean0_lt : optimistic t < pessimistic t -> pert_mean0 t shape < pessimistic t.
Proof.
  destruct Hwf as (? & ? & ?). intros. unfold pert_mean0.
  apply Qlt_shift_div_r; nra.
Qed.

Lemma pert_var0_nonneg : 0 <= pert_var0 t shape.
Proof.
  pose proof pert_mean0_ge. pose proof pert_mean0_le. unfold pert_var0.
  apply Qle_shift_div_l; nra.
Qed.

Lemma pert_var0_pos : optimistic t < pessimistic t -> 0 < pert_var0 t shape.
Proof.
  intros Hlt. pose proof (pert_mean0_gt Hlt). pose proof (pert_mean0_lt Hlt).
  unfold pert_var0. apply Qlt_shift_div_l; nra.
Qed.

End Pert.

#[export] Hint Resolve pert_mean0_ge pert_mean0_le pert_var0_nonneg : forecast.

(** [(1 + d)^2] grows strictly with [d] above [-1]. *)
Lemma widen_strict d1 d2 :
  -1 <= d1 -> d1 < d2 -> (1 + d1) * (1 + d1) < (1 + d2) * (1 + d2).
Proof. intros. nra. Qed.

(** ** Beta moment matching *)

Section Beta.
Context (d : Distribution).
Let t := dist_triad d.
Let shape := dist_shape d.
Hypothesis Hwf : triad_wf t.
Hypothesis Hshape : 0 <= shape.
Hypothesis Hspread : optimistic t < pessimistic t.
Hypothesis Hdelta : 0 <= dist_delta_b d.

(** The concentration [mu (1 - mu) / v] of the matched Beta is
    [(shape + 3) / (1 + delta_b)^2], whatever the triad. *)
Lemma beta_concentration :
  let w := pessimistic t - optimistic t in
  let mu := (pert_mean0 t shape - optimistic t) / w in
  mu * (1 - mu) / (variance d / (w * w))
  == (shape + 3) / ((1 + dist_delta_b d) * (1 + dist_delta_b d)).
Proof.
  cbv zeta. pose proof (pert_mean0_gt t shape Hwf Hshape Hspread).
  pose proof (pert_mean0_lt t shape Hwf Hshape Hspread).
  unfold variance, pert_var0. unfold t, shape in *.
  field. repeat split; intros Heq; lra.
Qed.

Lemma beta_mu_bounds :
  0 < (pert_mean0 t shape - optimistic t) / (pessimistic t - optimistic t) < 1.
Proof.
  pose proof (pert_mean0_gt t shape Hwf Hshape Hspread).
  pose proof (pert_mean0_lt t shape Hwf Hshape Hspread).
  split; [apply Qlt_shift_div_l | apply Qlt_shift_div_r]; lra.
Qed.

(** The concentration exceeds 1 exactly when the widened variance stays
    below the Beta limit [shape + 3]. *)
Lemma concentration_pos_iff :
  0 < (shape + 3) / ((1 + dist_delta_b d) * (1 + dist_delta_b d)) - 1 <->
  (1 + dist_delta_b d) * (1 + dist_delta_b d) < shape + 3.
Proof.
  set (D := (1 + dist_delta_b d) * (1 + dist_delta_b d)).
  assert (0 < D) by (unfold D; nra).
  split; intros Hlt.
  - destruct (Qlt_le_dec D (shape + 3)) as [|Hge]; [done|]. exfalso.
    assert ((shape + 3) / D <= 1) by (apply Qle_shift_div_r; lra). lra.
  - enough (1 < (shape + 3) / D) by lra. apply Qlt_shift_div_l; lra.
Qed.

(** C12: the moment-matched Beta parameters of [sample] are both positive
    exactly when [(1 + delta_b)^2 < shape + 3]: for a larger uncertainty
    factor (above [sqrt 7 - 1], about 1.65, at the default shape 4) the
    parameters are not positive and no Beta distribution matches. *)
Theorem beta_params_pos_iff :
  0 < fst (beta_params d) /\ 0 < snd (beta_params d) <->
  (1 + dist_delta_b d) * (1 + dist_delta_b d) < shape + 3.
Proof.
  pose proof beta_mu_bounds as Hmu. pose proof beta_concentration as Hc.
  unfold beta_params; cbv zeta in *; cbn [fst snd]. fold t shape. rewrite Hc.
  rewrite <- concentration_pos_iff.
  split; [intros [Ha _]; nra | intros Hpos; split; nra].
Qed.

(** C16: Beta moment matching is a round trip: when the parameters
    [(a, b)] are positive, the Beta(a, b) distribution has mean
    [a / (a + b)] equal to the calibrated mean normalised to [[o, p]],
    [mu = (mean0 - o) / (p - o)], and variance
    [a b / ((a + b)^2 (a + b + 1))] equal to the calibrated variance
    normalised, [variance / (p - o)^2]: the parameters computed from the
    two moments give those moments back. *)
Theorem beta_params_roundtrip :
  (1 + dist_delta_b d) * (1 + dist_delta_b d) < shape + 3 ->
  let w := pessimistic t - optimistic t in
  (beta_params d).1 / ((beta_params d).1 + (beta_params d).2)
    == (pert_mean0 t shape - optimistic t) / w /\
  (beta_params d).1 * (beta_params d).2 /
    (((beta_params d).1 + (beta_params d).2) * ((beta_params d).1 + (beta_params d).2)
     * ((beta_params d).1 + (beta_params d).2 + 1))
    == variance d / (w * w).
Proof.
  intros HD w. pose proof beta_mu_bounds as Hmu. pose proof beta_concentration as Hc.
  unfold beta_params; cbv zeta in *; cbn [fst snd]. fold t shape w in Hc, Hmu |- *.
  set (mu := (pert_mean0 t shape - optimistic t) / w) in *.
  set (v := variance d / (w * w)) in *.
  apply concentration_pos_iff in HD. rewrite <- Hc in HD.
  set (k := mu * (1 - mu) / v - 1) in *.
  assert (Hv : ~ v == 0).
  { intros Hv0. unfold k in HD. rewrite Hv0 in HD. unfold Qdiv in HD.
    change (/ 0) with 0 in HD. rewrite Qmult_0_r in HD. lra. }
  assert (Hab : mu * k + (1 - mu) * k == k) by ring. rewrite Hab.
  assert (Hk1 : k + 1 == mu * (1 - mu) / v) by (unfold k; ring).
  split; [field; lra|]. rewrite Hk1. field. split_and!; [done|lra|lra|lra].
Qed.

End Beta.

(** ** Sampling with an injectable source *)

Section Sampling.
Context {S : Type} (betavariate : Q -> Q -> S -> Q * S).
Hypothesis Hdraw : forall a b s, 0 <= fst (betavariate a b s) <= 1.

Lemma sample_cons d n s :
  sample betavariate d (Datatypes.S n) s =
  let '(x, s1) := betavariate (fst (beta_params d)) (snd (beta_params d)) s in
  let t := dist_triad d in
  let y := (optimistic t + x * (pessimistic t - optimistic t)) * dist_alpha d in
  let '(ys, s2) := sample betavariate d n s1 in (y :: ys, s2).
Proof. cbn. by destruct (beta_params d). Qed.

(** C32: [sample(n)] returns exactly [n] draws, each in
    [[alpha * o, alpha * p]], whenever the source's Beta draws lie in
    [[0, 1]]. *)
Theorem sample_spec d n s :
  triad_wf (dist_triad d) -> 0 <= dist_alpha d ->
  length (fst (sample betavariate d n s)) = n /\
  Forall (fun y => dist_alpha d * optimistic (dist_triad d) <= y
                   <= dist_alpha d * pessimistic (dist_triad d))
         (fst (sample betavariate d n s)).
Proof.
  intros (? & ? & ?) Ha. revert s. induction n as [|n IH]; intros s; [done|].
  rewrite sample_cons.
  destruct (betavariate _ _ s) as [x s1] eqn:Ex.
  pose proof (Hdraw (fst (beta_params d)) (snd (beta_params d)) s) as Hx.
  rewrite Ex in Hx. cbn in Hx.
  destruct (sample betavariate d n s1) as [ys s2] eqn:Es.
  destruct (IH s1) as [Hlen Hall]. rewrite Es in Hlen, Hall. cbn in *.
  split; [by rewrite Hlen|]. constructor; [|done].
  assert (0 <= x * (pessimistic (dist_triad d) - optimistic (dist_triad d))
          <= pessimistic (dist_triad d) - optimistic (dist_triad d)) by (split; nra).
  split; nra.
Qed.

End Sampling.

(** ** The calibrated moments *)

(** C18: the calibrated mean of a valid triad lies in
    [[alpha * o, alpha * p]]: the base PERT mean lies in [[o, p]] and the
    bias scales it.  With a bias other than 1 it may leave [[o, p]]. *)
Theorem mean_range d :
  triad_wf (dist_triad d) -> 0 <= dist_shape d -> 0 <= dist_alpha d ->
  dist_alpha d * optimistic (dist_triad d) <= mean d
  <= dist_alpha d * pessimistic (dist_triad d).
Proof.
  intros Hwf Hs Ha. unfold mean.
  pose proof (pert_mean0_ge _ _ Hwf Hs). pose proof (pert_mean0_le _ _ Hwf Hs).
  split; nra.
Qed.

(** The calibrated variance of a valid triad is never negative, for
    every uncertainty factor. *)
Theorem variance_nonneg d :
  triad_wf (dist_triad d) -> 0 <= dist_shape d -> 0 <= variance d.
Proof.
  intros Hwf Hs. unfold variance. pose proof (pert_var0_nonneg _ _ Hwf Hs).
  apply Qmult_le_0_compat; [done|apply qsquare_nonneg].
Qed.

(** C20: for a triad with [o < p] the calibrated variance grows strictly
    with the uncertainty factor (from [-1] on, so on all of [delta_b >= 0]). *)
Theorem variance_strict_mono t a s d1 d2 :
  triad_wf t -> 0 <= s -> optimistic t < pessimistic t -> -1 <= d1 -> d1 < d2 ->
  variance {| dist_triad := t; dist_alpha := a; dist_delta_b := d1; dist_shape := s |}
  < variance {| dist_triad := t; dist_alpha := a; dist_delta_b := d2; dist_shape := s |}.
Proof.
  intros Hwf Hs Hlt H1 H12. unfold variance; cbn.
  pose proof (pert_var0_pos t s Hwf Hs Hlt). pose proof (widen_strict d1 d2 H1 H12).
  rewrite !(Qmult_comm (pert_var0 t s)). by apply Qmult_lt_r.
Qed.

(** ** Witnesses *)

(** The triad of the spec's worked example, calibrated with [delta_b = 2]. *)
Definition example_dist (alpha delta : Q) : Distribution :=
  {| dist_triad := {| optimistic := 5; most_likely := 8; pessimistic := 14 |};
     dist_alpha := alpha; dist_delta_b := delta; dist_shape := 4 |}.

Lemma example_triad_wf : triad_wf (dist_triad (example_dist 1 0)).
Proof. unfold triad_wf; cbn. split_and!; qcompute. Qed.

Lemma beta_params_roundtrip_witness :
  (beta_params (example_dist 1 0.5)).1
    / ((beta_params (example_dist 1 0.5)).1 + (beta_params (example_dist 1 0.5)).2)
    == (pert_mean0 (dist_triad (example_dist 1 0.5)) 4 - 5) / (14 - 5) /\
  (beta_params (example_dist 1 0.5)).1 * (beta_params (example_dist 1 0.5)).2 /
    (((beta_params (example_dist 1 0.5)).1 + (beta_params (example_dist 1 0.5)).2)
     * ((beta_params (example_dist 1 0.5)).1 + (beta_params (example_dist 1 0.5)).2)
     * ((beta_params (example_dist 1 0.5)).1 + (beta_params (example_dist 1 0.5)).2 + 1))
    == variance (example_dist 1 0.5) / ((14 - 5) * (14 - 5)).
Proof.
  apply (beta_params_roundtrip (example_dist 1 0.5)); [exact example_triad_wf | qcompute ..].
Defined.

Lemma beta_params_pos_iff_witness :
  (0 < fst (beta_params (example_dist 1 2)) /\ 0 < snd (beta_params (example_dist 1 2))) <->
  (1 + 2) * (1 + 2) < 4 + 3.
Proof.
  apply (beta_params_pos_iff (example_dist 1 2)); [exact example_triad_wf| qcompute ..].
Defined.

Lemma sample_spec_witness :
  length (fst (sample (fun a b s => (1 # 2, S s)) (example_dist 1 0) 3 O)) = 3%nat /\
  Forall (fun y => 1 * 5 <= y <= 1 * 14)
         (fst (sample (fun a b s => (1 # 2, S s)) (example_dist 1 0) 3 O)).
Proof.
  apply (sample_spec (fun a b s => (1 # 2, S s))).
  - intros; cbn; split; qcompute.
  - exact example_triad_wf.
  - qcompute.
Defined.

Lemma mean_range_witness :
  1.925 * 5 <= mean (example_dist 1.925 0) <= 1.925 * 14.
Proof.
  apply (mean_range (example_dist 1.925 0)); [exact example_triad_wf | qcompute ..].
Defined.

Lemma variance_nonneg_witness : 0 <= variance (example_dist 1 2).
Proof. apply variance_nonneg; [exact example_triad_wf | qcompute]. Defined.

Lemma variance_strict_mono_witness :
  variance (example_dist 1 0) < variance (example_dist 1 (1 # 2)).
Proof.
  apply variance_strict_mono; [exact example_triad_wf | qcompute ..].
Defined.
