(* ===== verification/Calibrator.v ===== *)
(** * Calibrator: bias fitting and the distribution builder (spec 4.2)

    [Calibrator] holds the settings of [default_calibrator(shape=...)]: the
    PERT shape and the bounds of the [delta_b] search.  [BiasModel] maps an
    estimator to its bias; [alpha_for] falls back to exactly 1 for an
    unseen estimator.  [fit_bias] groups the observations by estimator in
    a dict ([group_ratios]) and takes the arithmetic mean of each group's
    [actual / modal] ratios.  [build_distribution] delegates to
    [Distribution]. *)

From stdpp Require Import base list gmap strings.
From Stdlib Require Import QArith Lqa.
From S2P Require Import Prelude Entities Distribution.

Open Scope Q_scope.

Record Calibrator : Type := {
  cal_shape : Q;       (** PERT peakedness [shape] *)
  cal_delta_hi : Q;    (** upper end of the [delta_b] search range *)
  cal_max_iter : nat;  (** bisection iteration cap *)
  cal_tol : Q          (** bisection tolerance on [delta_b] *)
}.

(** [default_calibrator(shape)]: search [delta_b] in [[0, 10]] with at most
    60 halvings and tolerance [1e-6]. *)
Definition default_calibrator (shape : Q) : Calibrator :=
  {| cal_shape := shape; cal_delta_hi := 10; cal_max_iter := 60; cal_tol := 1 # 1000000 |}.

Record BiasModel : Type := { alphas : gmap string Q }.

(** [BiasModel.alpha_for(e)]: [alphas.get(e, 1.0)]. *)
Definition alpha_for (b : BiasModel) (e : string) : Q :=
  default 1 (alphas b !! e).

(** [actual / modal] of one observation. *)
Definition ratio (o : BiasObservation) : Q :=
  actual_hours o / modal_estimate_hours o.

(** One step of [groups[o.engineer_id].append(ratio(o))] on a dict of lists. *)
Definition group_step (g : gmap string (list Q)) (o : BiasObservation) : gmap string (list Q) :=
  <[engineer_id o := default [] (g !! engineer_id o) ++ [ratio o]]> g.

Definition group_ratios (obs : list BiasObservation) : gmap string (list Q) :=
  fold_left group_step obs ∅.

(** [sum(rs) / len(rs)]. *)
Definition qmean (rs : list Q) : Q := qsum rs / qlen rs.

(** [fit_bias(observations)]: [InvalidObservation] if some modal estimate
    is not positive; otherwise the mean ratio of each estimator. *)
Definition fit_bias (obs : list BiasObservation) : fresult BiasModel :=
  ensure forallb (fun o => qlt 0 (modal_estimate_hours o)) obs or InvalidObservation ;;
  Ok {| alphas := qmean <$> group_ratios obs |}.

(** [calibrator.build_distribution(triad, engineer_id, bias, delta_b)]. *)
Definition build_distribution (cal : Calibrator) (t : ThreePointEstimate)
    (eid : string) (bias : BiasModel) (delta_b : Q) : Distribution :=
  {| dist_triad := t; dist_alpha := alpha_for bias eid;
     dist_delta_b := delta_b; dist_shape := cal_shape cal |}.

(** Two bias models are equivalent when they have the same estimators with
    equal biases: the "equal within floating tolerance" of the spec. *)
Definition bias_equiv (b1 b2 : BiasModel) : Prop :=
  forall e, option_Forall2 Qeq (alphas b1 !! e) (alphas b2 !! e).

(** The observations of one estimator, in order. *)
Definition obs_of (e : string) (obs : list BiasObservation) : list BiasObservation :=
  filter (fun o => engineer_id o = e) obs.

(** ** The grouping dict *)

Lemma group_fold_lookup obs g e :
  fold_left group_step obs g !! e =
  match g !! e, obs_of e obs with
  | None, [] => None
  | None, l => Some (ratio <$> l)
  | Some rs, l => Some (rs ++ (ratio <$> l))
  end.
Proof.
  revert g. induction obs as [|o obs IH]; intros g; cbn [fold_left].
  { cbn. destruct (g !! e); [by rewrite app_nil_r|done]. }
  rewrite IH. unfold obs_of, group_step.
  destruct (decide (engineer_id o = e)) as [Heq|Hne].
  - rewrite filter_cons_True by done. subst e. rewrite lookup_insert_eq.
    destruct (g !! engineer_id o); cbn; [by rewrite <- app_assoc|].
    by destruct (filter _ obs).
  - rewrite filter_cons_False by done. by rewrite lookup_insert_ne.
Qed.

Lemma group_ratios_lookup obs e :
  group_ratios obs !! e =
  match obs_of e obs with [] => None | l => Some (ratio <$> l) end.
Proof. unfold group_ratios. rewrite group_fold_lookup, lookup_empty. done. Qed.

Lemma obs_of_perm e obs1 obs2 : obs1 ≡ₚ obs2 -> obs_of e obs1 ≡ₚ obs_of e obs2.
Proof. intros H. unfold obs_of. by rewrite H. Qed.

Lemma qmean_perm l1 l2 : l1 ≡ₚ l2 -> qmean l1 == qmean l2.
Proof. intros H. unfold qmean. rewrite (qsum_perm _ _ H), (qlen_perm _ _ H). reflexivity. Qed.

Lemma fit_bias_lookup obs b e :
  fit_bias obs = Ok b ->
  alphas b !! e = match obs_of e obs with [] => None | l => Some (qmean (ratio <$> l)) end.
Proof.
  unfold fit_bias. intros H. inv_ok. subst b. cbn.
  rewrite lookup_fmap, group_ratios_lookup. by destruct (obs_of e obs).
Qed.

Lemma fit_bias_modal_pos obs b :
  fit_bias obs = Ok b -> Forall (fun o => 0 < modal_estimate_hours o) obs.
Proof.
  unfold fit_bias. intros H. inv_ok. apply Forall_forall. intros o Ho.
  rewrite forallb_forall in Hb. apply qlt_spec, Hb, list_elem_of_In, Ho.
Qed.

#[export] Instance bias_equiv_equiv : Equivalence bias_equiv.
Proof.
  split.
  - intros b e. destruct (alphas b !! e); constructor. reflexivity.
  - intros b1 b2 H e. specialize (H e). inversion H; constructor. by symmetry.
  - intros b1 b2 b3 H12 H23 e. specialize (H12 e). specialize (H23 e).
    destruct (alphas b1 !! e), (alphas b2 !! e), (alphas b3 !! e);
      inversion H12; inversion H23; constructor; (etransitivity; eassumption).
Qed.

#[export] Instance alpha_for_proper : Proper (bias_equiv ==> eq ==> Qeq) alpha_for.
Proof.
  intros b1 b2 H e ? <-. unfold alpha_for. specialize (H e).
  inversion H; cbn; [done|reflexivity].
Qed.

#[export] Instance build_distribution_proper cal t e :
  Proper (bias_equiv ==> Qeq ==> dist_equiv) (build_distribution cal t e).
Proof.
  intros b1 b2 Hb d1 d2 Hd. unfold build_distribution, dist_equiv; cbn.
  split_and!; [done|by rewrite Hb|done|reflexivity].
Qed.

Lemma ratio_pos o : 0 < actual_hours o -> 0 < modal_estimate_hours o -> 0 < ratio o.
Proof.
  intros Ha Hm. unfold ratio. apply Qlt_shift_div_l; [done|]. lra.
Qed.

(** ** Properties of [fit_bias] *)

(** C22: [fit_bias] succeeds exactly when every modal estimate is positive,
    with the dict of per-estimator mean ratios, and raises
    [InvalidObservation] when one is not. *)
Theorem fit_bias_outcome obs :
  (Forall (fun o => 0 < modal_estimate_hours o) obs ->
   fit_bias obs = Ok {| alphas := qmean <$> group_ratios obs |}) /\
  (Exists (fun o => modal_estimate_hours o <= 0) obs ->
   fit_bias obs = Err InvalidObservation).
Proof.
  unfold fit_bias. split; intros H.
  - replace (forallb _ obs) with true; [done|]. symmetry. apply forallb_forall.
    intros o Ho. apply qlt_spec. rewrite Forall_forall in H. by apply H, list_elem_of_In.
  - destruct (forallb _ obs) eqn:Hall; [|done]. exfalso.
    apply Exists_exists in H as (o & Ho & Hle). rewrite forallb_forall in Hall.
    apply list_elem_of_In, Hall, qlt_spec in Ho. lra.
Qed.

(** C4: the fitted bias of an estimator is the arithmetic mean of the
    [actual / modal] ratios of its observations, and exactly 1 when it has
    none. *)
Theorem fit_bias_alpha_for obs b e :
  fit_bias obs = Ok b ->
  alpha_for b e = match obs_of e obs with [] => 1 | l => qmean (ratio <$> l) end.
Proof.
  intros H. unfold alpha_for. rewrite (fit_bias_lookup _ _ e H).
  by destruct (obs_of e obs).
Qed.

(** C28: [fit_bias] does not depend on the order of the observations: a
    permutation gives the same error or an equivalent bias model. *)
Theorem fit_bias_perm obs1 obs2 :
  obs1 ≡ₚ obs2 -> result_rel bias_equiv (fit_bias obs1) (fit_bias obs2).
Proof.
  intros Hp. unfold fit_bias. rewrite (forallb_perm _ _ _ Hp).
  destruct (forallb _ obs2); cbn [result_rel]; [|done]. intros e. cbn [alphas].
  rewrite !lookup_fmap, !group_ratios_lookup.
  pose proof (obs_of_perm e _ _ Hp) as He. revert He.
  generalize (obs_of e obs1) (obs_of e obs2). intros l1 l2 He.
  destruct l1 as [|o1 l1], l2 as [|o2 l2].
  - constructor.
  - by apply Permutation_nil_l in He.
  - by apply Permutation_nil_r in He.
  - constructor. apply qmean_perm. by rewrite He.
Qed.

(** When every observed effort is positive, every fitted bias is
    positive, the invariant [alpha > 0] of the data model. *)
Theorem fit_bias_alphas_pos obs b :
  Forall (fun o => 0 < actual_hours o) obs -> fit_bias obs = Ok b ->
  forall e a, alphas b !! e = Some a -> 0 < a.
Proof.
  intros Hact Hfit e a. rewrite (fit_bias_lookup _ _ e Hfit).
  pose proof (fit_bias_modal_pos _ _ Hfit) as Hmod.
  assert (Hsub : Forall (fun o => 0 < ratio o) (obs_of e obs)).
  { rewrite Forall_forall in Hact, Hmod |- *. intros o Ho.
    apply list_elem_of_filter in Ho as [_ Ho]. apply ratio_pos; auto. }
  destruct (obs_of e obs) as [|o l] eqn:E; [done|]. intros [= <-].
  unfold qmean. apply Qlt_shift_div_l; [by apply qlen_pos|].
  rewrite Qmult_0_l. apply qsum_pos; [done|].
  change (Forall (Qlt 0) (ratio <$> o :: l)). apply Forall_fmap.
  eapply Forall_impl; [exact Hsub|]. done.
Qed.

(** With positive fitted biases, every estimator's bias is positive,
    the unseen ones included (1). *)
Lemma alpha_for_pos b e :
  (forall e a, alphas b !! e = Some a -> 0 < a) -> 0 < alpha_for b e.
Proof.
  intros Hpos. unfold alpha_for. destruct (alphas b !! e) eqn:E; cbn; [|done].
  exact (Hpos _ _ E).
Qed.

(** ** Witnesses *)

Definition example_o1 : BiasObservation :=
  {| engineer_id := "e1"; modal_estimate_hours := 6; actual_hours := 9; obs_triad := None |}.
Definition example_o2 : BiasObservation :=
  {| engineer_id := "e2"; modal_estimate_hours := 4; actual_hours := 3.2; obs_triad := None |}.
Definition example_o3 : BiasObservation :=
  {| engineer_id := "e1"; modal_estimate_hours := 8; actual_hours := 24; obs_triad := None |}.
Definition example_obs : list BiasObservation := [example_o1; example_o2; example_o3].

Definition example_bias : BiasModel := {| alphas := qmean <$> group_ratios example_obs |}.

Lemma fit_bias_outcome_witness :
  fit_bias example_obs = Ok example_bias /\
  fit_bias ({| engineer_id := "e3"; modal_estimate_hours := 0; actual_hours := 1;
               obs_triad := None |} :: example_obs) = Err InvalidObservation.
Proof.
  split; [apply (fit_bias_outcome example_obs) | apply fit_bias_outcome].
  - repeat constructor; qcompute.
  - apply Exists_cons_hd. qcompute.
Defined.

Lemma fit_bias_alpha_for_witness :
  alpha_for example_bias "e1" = qmean (ratio <$> obs_of "e1" example_obs) /\
  alpha_for example_bias "e4" = 1.
Proof.
  split; [apply (fit_bias_alpha_for example_obs) | apply (fit_bias_alpha_for example_obs)];
    reflexivity.
Defined.

Lemma fit_bias_perm_witness :
  result_rel bias_equiv (fit_bias example_obs) (fit_bias [example_o2; example_o1; example_o3]).
Proof. apply fit_bias_perm. apply perm_swap. Defined.

Lemma fit_bias_alphas_pos_witness : 0 < default 0 (alphas example_bias !! "e1").
Proof.
  refine (fit_bias_alphas_pos example_obs example_bias _ _ "e1" _ _);
    [repeat constructor; qcompute | reflexivity | vm_compute; reflexivity].
Defined.
