(* ===== verification/DeltaB.v ===== *)
(** * DeltaB: calibrating the uncertainty factor (spec 4.2, [fit_delta_b])

    [coverage] is the fraction of the observations carrying a triad whose
    actual effort lies in [[mean - z sd, mean + z sd]] of their calibrated
    distribution, [z] being the two-sided normal quantile of the target
    coverage.  [fit_delta_b] returns 0 when that already meets the target,
    raises [ConvergenceFailure] when the top of the search range does not,
    and otherwise bisects: [bisect] halves [[lo, hi]] at most
    [cal_max_iter] times, keeping [coverage lo < target <= coverage hi],
    and stops early once the interval is narrower than [cal_tol].

    The generic bisection is in the section [Bisection]; its theorems hold
    for every monotone predicate. *)

From stdpp Require Import base list gmap strings.
From Stdlib Require Import QArith Qpower Lqa.
From S2P Require Import Prelude Numerics Entities Distribution Calibrator.

Open Scope Q_scope.

(** [midpoint lo hi] as a float: the value, in lowest terms. *)
Definition midpoint (lo hi : Q) : Q := Qred ((lo + hi) / 2).

(** One step-and-test of the bisection loop on [[lo, hi]]. *)
Fixpoint bisect (ok : Q -> bool) (tol : Q) (n : nat) (lo hi : Q) : Q * Q :=
  match n with
  | O => (lo, hi)
  | S n' =>
      let mid := midpoint lo hi in
      let '(lo', hi') := if ok mid then (lo, mid) else (mid, hi) in
      if qlt (hi' - lo') tol then (lo', hi') else bisect ok tol n' lo' hi'
  end.

Section WithMath.
Context `{MathLib}.

(** The observations that carry a triad, with it. *)
Definition with_triads (obs : list BiasObservation) : list (ThreePointEstimate * BiasObservation) :=
  omap (fun o => (fun t => (t, o)) <$> obs_triad o) obs.

(** Is the actual effort inside the central interval? *)
Definition covered (cal : Calibrator) (bias : BiasModel) (z d : Q)
    (to : ThreePointEstimate * BiasObservation) : bool :=
  let dist := build_distribution cal to.1 (engineer_id to.2) bias d in
  let sd := sd_of (variance dist) in
  qle (mean dist - z * sd) (actual_hours to.2) && qle (actual_hours to.2) (mean dist + z * sd).

(** [coverage(d)]; with no triad at all nothing contradicts the model, and
    the coverage is 1. *)
Definition coverage (cal : Calibrator) (bias : BiasModel) (target : Q)
    (obs : list BiasObservation) (d : Q) : Q :=
  match with_triads obs with
  | [] => 1
  | ts => qlen (List.filter (covered cal bias (z_two_sided target) d) ts) / qlen ts
  end.

(** [coverage(d) >= target_coverage]. *)
Definition reaches (cal : Calibrator) (bias : BiasModel) (target : Q)
    (obs : list BiasObservation) (d : Q) : bool :=
  qle target (coverage cal bias target obs d).

(** [fit_delta_b(observations, bias, target_coverage)]. *)
Definition fit_delta_b (cal : Calibrator) (obs : list BiasObservation)
    (bias : BiasModel) (target : Q) : fresult Q :=
  let ok := reaches cal bias target obs in
  if ok 0 then Ok 0
  else if ok (cal_delta_hi cal) then
    Ok (snd (bisect ok (cal_tol cal) (cal_max_iter cal) 0 (cal_delta_hi cal)))
  else Err ConvergenceFailure.

End WithMath.

(** ** The bisection loop *)

Lemma midpoint_spec lo hi : 2 * midpoint lo hi == lo + hi.
Proof. unfold midpoint. rewrite Qred_correct. field. Qed.

Section Bisection.
Variable ok : Q -> bool.
Variable tol : Q.

(** The loop invariant: [ok] fails at [lo], holds at [hi], [0 <= lo < hi]. *)
Definition bis_inv (lo hi : Q) : Prop :=
  0 <= lo /\ lo < hi /\ ok lo = false /\ ok hi = true.

Lemma bisect_step_inv lo hi :
  bis_inv lo hi ->
  bis_inv (if ok (midpoint lo hi) then lo else midpoint lo hi)
          (if ok (midpoint lo hi) then midpoint lo hi else hi).
Proof.
  intros (H0 & Hlt & Hlo & Hhi). pose proof (midpoint_spec lo hi).
  assert (lo < midpoint lo hi < hi) as [? ?] by lra.
  destruct (ok (midpoint lo hi)) eqn:E; unfold bis_inv; split_and!; auto; lra.
Qed.

Lemma bisect_cons n lo hi :
  bisect ok tol (S n) lo hi =
  let lo' := if ok (midpoint lo hi) then lo else midpoint lo hi in
  let hi' := if ok (midpoint lo hi) then midpoint lo hi else hi in
  if qlt (hi' - lo') tol then (lo', hi') else bisect ok tol n lo' hi'.
Proof. cbn. by destruct (ok (midpoint lo hi)). Qed.

(** One step halves the interval. *)
Lemma bisect_step_width lo hi :
  (if ok (midpoint lo hi) then midpoint lo hi else hi) -
  (if ok (midpoint lo hi) then lo else midpoint lo hi) == (hi - lo) * (1#2).
Proof. pose proof (midpoint_spec lo hi). destruct (ok _); lra. Qed.

(** The invariant holds at the end, and the interval only shrinks. *)
Lemma bisect_inv n lo hi :
  bis_inv lo hi ->
  bis_inv (bisect ok tol n lo hi).1 (bisect ok tol n lo hi).2 /\
  lo <= (bisect ok tol n lo hi).1 /\ (bisect ok tol n lo hi).2 <= hi.
Proof.
  revert lo hi. induction n as [|n IH]; intros lo hi Hinv.
  { cbn. split_and!; [done|lra|lra]. }
  rewrite bisect_cons. cbv zeta.
  pose proof (bisect_step_inv lo hi Hinv) as Hstep.
  assert (lo <= (if ok (midpoint lo hi) then lo else midpoint lo hi) /\
          (if ok (midpoint lo hi) then midpoint lo hi else hi) <= hi) as [Hl Hh].
  { destruct Hinv as (_ & Hlt & _). pose proof (midpoint_spec lo hi).
    destruct (ok _); split; lra. }
  destruct (qlt _ tol); cbn [fst snd]; [split_and!; auto|].
  destruct (IH _ _ Hstep) as (? & ? & ?). split_and!; auto; lra.
Qed.

(** Either the loop stopped on the tolerance, or it ran all [n] halvings. *)
Lemma bisect_width n lo hi :
  lo < hi ->
  (bisect ok tol n lo hi).2 - (bisect ok tol n lo hi).1 < tol \/
  (bisect ok tol n lo hi).2 - (bisect ok tol n lo hi).1
  == (hi - lo) / inject_Z (2 ^ Z.of_nat n).
Proof.
  revert lo hi. induction n as [|n IH]; intros lo hi Hlt.
  { right. change (inject_Z (2 ^ Z.of_nat 0)) with 1. cbn [bisect fst snd]. field. }
  rewrite bisect_cons. cbv zeta. pose proof (bisect_step_width lo hi) as Hw.
  destruct (qlt _ tol) eqn:Et; cbn [fst snd]; qbool; [by left|].
  destruct (IH (if ok (midpoint lo hi) then lo else midpoint lo hi)
              (if ok (midpoint lo hi) then midpoint lo hi else hi)) as [Hl|Hr];
    [lra|by left|right].
  rewrite Hr, Hw, pow2_S. field. intros Hz. pose proof (pow2_pos n). lra.
Qed.

(** Once [k + 1] halvings bring the width of [[lo, hi]] below [tol], the
    loop has stopped: a larger iteration cap changes nothing. *)
Lemma bisect_fuel_stable k n lo hi :
  (hi - lo) / inject_Z (2 ^ Z.of_nat (S k)) < tol -> (S k <= n)%nat ->
  bisect ok tol n lo hi = bisect ok tol (S k) lo hi.
Proof.
  revert n lo hi. induction k as [|k IH]; intros n lo hi Hw Hn;
    (destruct n as [|n]; [lia|]); rewrite !bisect_cons; cbv zeta;
    pose proof (bisect_step_width lo hi) as Hs;
    destruct (qlt _ tol) eqn:Et; try done; qbool.
  - exfalso. change (inject_Z (2 ^ Z.of_nat 1)) with 2 in Hw.
    assert (E : (hi - lo) / 2 == (hi - lo) * (1#2)) by field. lra.
  - apply IH; [|lia]. rewrite Hs.
    assert (E : (hi - lo) * (1#2) / inject_Z (2 ^ Z.of_nat (S k))
                == (hi - lo) / inject_Z (2 ^ Z.of_nat (S (S k)))).
    { rewrite (pow2_S (S k)). field. pose proof (pow2_pos (S k)). lra. }
    by rewrite E.
Qed.

End Bisection.

Lemma bisect_hi_ok ok tol n lo hi :
  ok hi = true -> ok (bisect ok tol n lo hi).2 = true.
Proof.
  revert lo hi. induction n as [|n IH]; intros lo hi Hhi; [done|].
  rewrite bisect_cons. cbv zeta.
  assert (Hh : ok (if ok (midpoint lo hi) then midpoint lo hi else hi) = true)
    by (destruct (ok (midpoint lo hi)) eqn:E; done).
  destruct (qlt _ tol); [done|]. by apply IH.
Qed.

(** ** Coverage *)

(** Every triad an observation carries satisfies the triad invariant. *)
Definition obs_triads_wf (obs : list BiasObservation) : Prop :=
  Forall (fun o => forall t, obs_triad o = Some t -> triad_wf t) obs.

(** Check [obs_triads_wf] on a concrete list of observations. *)
Ltac solve_obs_triads_wf :=
  unfold obs_triads_wf; apply Forall_forall; intros ?o Ho ?t Ht;
  repeat (apply elem_of_cons in Ho as [-> | Ho];
    [cbn in Ht; try discriminate; injection Ht as <-; unfold triad_wf; cbn;
     split_and!; qcompute|]);
  by apply elem_of_nil in Ho.

Section Coverage.
Context `{MathLib}.
Context (cal : Calibrator) (bias : BiasModel).

Lemma with_triads_wf obs :
  obs_triads_wf obs -> forall to, In to (with_triads obs) -> triad_wf to.1.
Proof.
  intros Hwf to Hin. apply list_elem_of_In, list_elem_of_omap in Hin as (o & Ho & Hto).
  destruct (obs_triad o) as [t|] eqn:Et; [|done]. injection Hto as <-.
  unfold obs_triads_wf in Hwf. rewrite Forall_forall in Hwf. by apply (Hwf o).
Qed.

(** A larger uncertainty factor widens the interval: what is covered stays
    covered. *)
Lemma covered_mono z d1 d2 to :
  triad_wf to.1 -> 0 <= cal_shape cal -> 0 <= z -> 0 <= d1 -> d1 <= d2 ->
  covered cal bias z d1 to = true -> covered cal bias z d2 to = true.
Proof.
  intros Hwf Hs Hz H1 H12. unfold covered, build_distribution. cbn [dist_triad].
  set (m := mean _). replace (mean _) with m by done.
  assert (Hsd : sd_of (variance {| dist_triad := to.1; dist_alpha := alpha_for bias (engineer_id to.2);
                                  dist_delta_b := d1; dist_shape := cal_shape cal |})
                <= sd_of (variance {| dist_triad := to.1; dist_alpha := alpha_for bias (engineer_id to.2);
                                     dist_delta_b := d2; dist_shape := cal_shape cal |})).
  { apply sd_of_mono. unfold variance; cbn.
    pose proof (pert_var0_nonneg _ _ Hwf Hs). rewrite !(Qmult_comm (pert_var0 _ _)). apply Qmult_le_compat_r; [nra|done]. }
  intros Hc. qbool. apply andb_true_iff. rewrite !qle_spec. nra.
Qed.

Lemma coverage_le target obs d1 d2 :
  obs_triads_wf obs -> 0 <= cal_shape cal -> 0 <= target -> target < 1 ->
  0 <= d1 -> d1 <= d2 ->
  coverage cal bias target obs d1 <= coverage cal bias target obs d2.
Proof.
  intros Hwf Hs Ht0 Ht1 H1 H12. unfold coverage.
  destruct (with_triads obs) as [|to ts] eqn:E; [lra|]. unfold Qdiv.
  apply Qmult_le_compat_r; [|apply Qinv_le_0_compat, qlen_nonneg].
  apply qlen_le, count_filter_mono. intros x Hx. apply covered_mono; auto.
  - apply (with_triads_wf obs Hwf). by rewrite E.
  - by apply z_two_sided_nonneg.
Qed.

Lemma reaches_mono target obs d1 d2 :
  obs_triads_wf obs -> 0 <= cal_shape cal -> 0 <= target -> target < 1 ->
  0 <= d1 -> d1 <= d2 ->
  reaches cal bias target obs d1 = true -> reaches cal bias target obs d2 = true.
Proof.
  intros. unfold reaches in *. qbool. apply qle_spec.
  eapply Qle_trans; [eassumption|]. by apply coverage_le.
Qed.

Lemma with_triads_filter obs :
  with_triads (filter (fun o => is_Some (obs_triad o)) obs) = with_triads obs.
Proof.
  unfold with_triads. induction obs as [|o obs IH]; [done|].
  rewrite filter_cons. destruct (obs_triad o) as [t|] eqn:Et.
  - rewrite decide_True by (by eexists). cbn. by rewrite Et, IH.
  - rewrite decide_False by apply is_Some_None. cbn. by rewrite Et, IH.
Qed.

(** When the target exceeds [(n - 1) / n] for [n] observations with a
    triad, reaching it means covering every one of them. *)
Lemma reaches_all_covered target obs d :
  with_triads obs <> [] -> target <= 1 ->
  qlen (with_triads obs) - 1 < target * qlen (with_triads obs) ->
  reaches cal bias target obs d = true <->
  Forall (fun to => covered cal bias (z_two_sided target) d to = true) (with_triads obs).
Proof.
  intros Hne Ht1 Htn. unfold reaches, coverage. rewrite qle_spec, <- filter_length_full.
  destruct (with_triads obs) as [|to ts]; [done|].
  set (l := to :: ts) in *. set (f := covered cal bias (z_two_sided target) d).
  assert (Hle : (length (List.filter f l) <= length l)%nat).
  { pose proof (count_filter_mono f (fun _ => true) l) as Hc.
    rewrite List.filter_true in Hc. by apply Hc. }
  pose proof (qlen_pos l ltac:(done)) as Hl. split.
  - intros Hcov. apply (Qmult_le_compat_r _ _ (qlen l)) in Hcov; [|lra].
    assert (E : qlen (List.filter f l) / qlen l * qlen l == qlen (List.filter f l))
      by (field; lra). rewrite E in Hcov.
    enough (Z.of_nat (length l) - 1 < Z.of_nat (length (List.filter f l)))%Z by lia.
    rewrite Zlt_Qlt, <- Z.add_opp_r, inject_Z_plus, inject_Z_opp. unfold qlen in *.
    replace (inject_Z 1) with 1 by reflexivity. lra.
  - intros Heq. assert (Hq : qlen (List.filter f l) = qlen l) by (unfold qlen; by rewrite Heq).
    rewrite Hq. apply Qle_shift_div_l; [done|]. nra.
Qed.

(** C30: the coverage of a factor never decreases as the factor grows, for
    a target coverage in [[0, 1)] and observations with valid triads. *)
Theorem coverage_mono target obs d1 d2 :
  obs_triads_wf obs -> 0 <= cal_shape cal -> 0 <= target -> target < 1 ->
  0 <= d1 -> d1 <= d2 ->
  coverage cal bias target obs d1 <= coverage cal bias target obs d2.
Proof. apply coverage_le. Qed.

(** Observations without a triad take no part in the coverage: it is
    the coverage of the observations that carry one. *)
Theorem coverage_untriaded target obs d :
  coverage cal bias target obs d =
  coverage cal bias target (filter (fun o => is_Some (obs_triad o)) obs) d.
Proof. unfold coverage. by rewrite with_triads_filter. Qed.

End Coverage.

(** ** [fit_delta_b] *)

(** The contract of [fit_delta_b]: a factor in the search range that meets
    the target and is minimal up to the tolerance. *)
Definition delta_b_spec (ok : Q -> bool) (hi tol r : Q) : Prop :=
  0 <= r <= hi /\ ok r = true /\ forall d, 0 <= d -> ok d = true -> r <= d + tol.

Section FitDeltaB.
Context `{MathLib}.
Context (cal : Calibrator) (obs : list BiasObservation) (bias : BiasModel) (target : Q).

Lemma fit_delta_b_contract r :
  obs_triads_wf obs -> 0 <= cal_shape cal -> 0 <= target -> target < 1 ->
  0 < cal_delta_hi cal ->
  cal_delta_hi cal / inject_Z (2 ^ Z.of_nat (cal_max_iter cal)) <= cal_tol cal ->
  fit_delta_b cal obs bias target = Ok r ->
  delta_b_spec (reaches cal bias target obs) (cal_delta_hi cal) (cal_tol cal) r.
Proof.
  intros Hwf Hs Ht0 Ht1 Hhi Hcap. set (ok := reaches cal bias target obs).
  assert (Htol : 0 < cal_tol cal).
  { eapply Qlt_le_trans; [|exact Hcap]. apply Qlt_shift_div_l; [apply pow2_pos|lra]. }
  unfold fit_delta_b; fold ok. destruct (ok 0) eqn:E0.
  { intros [= <-]. split_and!; [lra|lra|done|intros; lra]. }
  destruct (ok (cal_delta_hi cal)) eqn:Eh; [|discriminate]. intros [= <-].
  assert (Hinv : bis_inv ok 0 (cal_delta_hi cal)) by (unfold bis_inv; split_and!; auto; lra).
  destruct (bisect_inv ok (cal_tol cal) (cal_max_iter cal) _ _ Hinv) as ((Hlo & Hlt & Hl & Hr) & _ & Hle).
  destruct (bisect ok (cal_tol cal) (cal_max_iter cal) 0 (cal_delta_hi cal)) as [lo hi] eqn:Eb.
  cbn [fst snd] in *.
  assert (Hw : hi - lo <= cal_tol cal).
  { pose proof (bisect_width ok (cal_tol cal) (cal_max_iter cal) 0 (cal_delta_hi cal) Hhi) as Hw.
    rewrite Eb in Hw. cbn [fst snd] in Hw. destruct Hw as [Hw|Hw]; [lra|].
    assert (E : cal_delta_hi cal - 0 == cal_delta_hi cal) by ring.
    rewrite Hw, E. exact Hcap. }
  split_and!; [lra|done|done|]. intros d Hd Hok.
  destruct (Qlt_le_dec lo d) as [Hld|Hdl]; [lra|]. exfalso.
  enough (ok lo = true) by congruence.
  by apply (reaches_mono cal bias target obs d lo).
Qed.

(** C2: whenever [fit_delta_b] returns a factor, it meets the contract:
    it lies in the search range, its coverage reaches the target, and no
    factor smaller by more than the tolerance reaches it, provided the
    iteration cap is large enough for the range to shrink below the
    tolerance (the default: [10 / 2^60 < 1e-6]). *)
Theorem fit_delta_b_refines r :
  obs_triads_wf obs -> 0 <= cal_shape cal -> 0 <= target -> target < 1 ->
  0 < cal_delta_hi cal ->
  cal_delta_hi cal / inject_Z (2 ^ Z.of_nat (cal_max_iter cal)) <= cal_tol cal ->
  fit_delta_b cal obs bias target = Ok r ->
  delta_b_spec (reaches cal bias target obs) (cal_delta_hi cal) (cal_tol cal) r.
Proof. apply fit_delta_b_contract. Qed.

Lemma fit_delta_b_Err e :
  fit_delta_b cal obs bias target = Err e <->
  e = ConvergenceFailure /\
  coverage cal bias target obs 0 < target /\
  coverage cal bias target obs (cal_delta_hi cal) < target.
Proof.
  unfold fit_delta_b, reaches.
  destruct (qle target (coverage _ _ _ _ 0)) eqn:E0;
    [|destruct (qle target (coverage _ _ _ _ (cal_delta_hi cal))) eqn:Eh]; qbool.
  - split; [done|]. intros (_ & ? & _). lra.
  - split; [done|]. intros (_ & _ & ?). lra.
  - split; [by intros [= <-]|]. by intros (-> & _).
Qed.

(** C10: [fit_delta_b] raises only [ConvergenceFailure], and exactly when
    neither 0 nor the top of the search range reaches the target. *)
Theorem fit_delta_b_error e :
  fit_delta_b cal obs bias target = Err e <->
  e = ConvergenceFailure /\
  coverage cal bias target obs 0 < target /\
  coverage cal bias target obs (cal_delta_hi cal) < target.
Proof. apply fit_delta_b_Err. Qed.

Lemma fit_delta_b_cap_stable k :
  cal_delta_hi cal / inject_Z (2 ^ Z.of_nat (S k)) < cal_tol cal ->
  (S k <= cal_max_iter cal)%nat ->
  fit_delta_b cal obs bias target =
  fit_delta_b {| cal_shape := cal_shape cal; cal_delta_hi := cal_delta_hi cal;
                 cal_max_iter := S k; cal_tol := cal_tol cal |} obs bias target.
Proof.
  intros Hw Hk. unfold fit_delta_b. cbn [cal_delta_hi cal_tol cal_max_iter].
  change (reaches {| cal_shape := cal_shape cal; cal_delta_hi := cal_delta_hi cal;
                     cal_max_iter := S k; cal_tol := cal_tol cal |})
    with (reaches cal).
  destruct (reaches cal bias target obs 0); [done|].
  destruct (reaches cal bias target obs (cal_delta_hi cal)); [|done].
  rewrite (bisect_fuel_stable _ _ k); [done| |done].
  assert (E : cal_delta_hi cal - 0 == cal_delta_hi cal) by ring. by rewrite E.
Qed.

(** C14: [fit_delta_b] terminates within [k + 1] halvings whenever the
    search range divided by [2^(k+1)] is below the tolerance: every larger
    iteration cap gives the same result, so the cap is never what stops
    the loop (at the defaults, [10 / 2^24 < 1e-6 <= 10 / 2^23]: 24 of the
    60 iterations run at most). *)
Theorem fit_delta_b_iter_cap k :
  cal_delta_hi cal / inject_Z (2 ^ Z.of_nat (S k)) < cal_tol cal ->
  (S k <= cal_max_iter cal)%nat ->
  fit_delta_b cal obs bias target =
  fit_delta_b {| cal_shape := cal_shape cal; cal_delta_hi := cal_delta_hi cal;
                 cal_max_iter := S k; cal_tol := cal_tol cal |} obs bias target.
Proof. apply fit_delta_b_cap_stable. Qed.

(** A factor returned after bisection is positive: only a target met at
    0 gives 0. *)
Lemma fit_delta_b_zero r :
  0 < cal_delta_hi cal -> fit_delta_b cal obs bias target = Ok r ->
  (r == 0 <-> reaches cal bias target obs 0 = true).
Proof.
  intros Hhi. unfold fit_delta_b. set (ok := reaches cal bias target obs).
  destruct (ok 0) eqn:E0; [intros [= <-]; split; [done|reflexivity]|].
  destruct (ok (cal_delta_hi cal)) eqn:Eh; [|discriminate]. intros [= <-].
  assert (Hinv : bis_inv ok 0 (cal_delta_hi cal)) by (unfold bis_inv; split_and!; auto; lra).
  destruct (bisect_inv ok (cal_tol cal) (cal_max_iter cal) _ _ Hinv) as ((Hlo & Hlt & _) & _).
  split; [intros; lra|discriminate].
Qed.

(** [fit_delta_b] reads the observations only through those carrying a
    triad. *)
Lemma fit_delta_b_with_triads obs' :
  with_triads obs' = with_triads obs ->
  fit_delta_b cal obs' bias target = fit_delta_b cal obs bias target.
Proof. intros E. unfold fit_delta_b, reaches, coverage. by rewrite E. Qed.

End FitDeltaB.

(** ** Witnesses *)

Definition example_triad_obs : list BiasObservation := [
  {| engineer_id := "e1"; modal_estimate_hours := 8; actual_hours := 10.2;
     obs_triad := Some {| optimistic := 6; most_likely := 8; pessimistic := 12 |} |};
  {| engineer_id := "e1"; modal_estimate_hours := 8; actual_hours := 24;
     obs_triad := Some {| optimistic := 6; most_likely := 8; pessimistic := 14 |} |};
  {| engineer_id := "e2"; modal_estimate_hours := 3; actual_hours := 2.5;
     obs_triad := Some {| optimistic := 2; most_likely := 3; pessimistic := 5 |} |};
  {| engineer_id := "e2"; modal_estimate_hours := 4; actual_hours := 3.2; obs_triad := None |}].

Definition example_triad_bias : BiasModel :=
  {| alphas := qmean <$> group_ratios example_triad_obs |}.

Lemma example_triad_obs_wf : obs_triads_wf example_triad_obs.
Proof. solve_obs_triads_wf. Qed.

Lemma coverage_mono_witness :
  coverage (H:=coarse_math) (default_calibrator 4) example_triad_bias 0.9 example_triad_obs 0
  <= coverage (H:=coarse_math) (default_calibrator 4) example_triad_bias 0.9 example_triad_obs 5.
Proof. apply coverage_mono; [exact example_triad_obs_wf | qcompute ..]. Defined.

Lemma fit_delta_b_refines_witness :
  delta_b_spec (reaches (H:=coarse_math) (default_calibrator 4) example_triad_bias 0.9
                        example_triad_obs)
               10 (1 # 1000000) (42955385 # 8388608).
Proof.
  apply (fit_delta_b_refines (H:=coarse_math) (default_calibrator 4) example_triad_obs
           example_triad_bias 0.9); [exact example_triad_obs_wf | qcompute ..].
Defined.

Lemma fit_delta_b_error_witness :
  fit_delta_b (H:=coarse_math) (default_calibrator 4) example_triad_obs example_triad_bias 1 =
    Err ConvergenceFailure <->
  ConvergenceFailure = ConvergenceFailure /\
  coverage (H:=coarse_math) (default_calibrator 4) example_triad_bias 1 example_triad_obs 0 < 1 /\
  coverage (H:=coarse_math) (default_calibrator 4) example_triad_bias 1 example_triad_obs 10 < 1.
Proof. apply fit_delta_b_error. Defined.

Lemma fit_delta_b_iter_cap_witness :
  fit_delta_b (H:=coarse_math) (default_calibrator 4) example_triad_obs example_triad_bias 0.9 =
  fit_delta_b (H:=coarse_math)
    {| cal_shape := cal_shape (default_calibrator 4);
       cal_delta_hi := cal_delta_hi (default_calibrator 4); cal_max_iter := 24;
       cal_tol := cal_tol (default_calibrator 4) |}
    example_triad_obs example_triad_bias 0.9.
Proof.
  exact (fit_delta_b_iter_cap (default_calibrator 4) example_triad_obs example_triad_bias 0.9 23
           ltac:(qcompute) ltac:(cbn; lia)).
Defined.
