(* ===== verification/Engine.v ===== *)
(** * Engine: the [CommitCapacityEngine] (spec 4.3)

    The engine's state is the immutable triple (calibrator, bias model,
    [delta_b]) fixed at construction; every query is a pure function of it
    and of its arguments.  [day_moments] computes one day's capacity mean
    and variance from the per-engineer inputs (dicts in insertion order,
    correlations looked up under the sorted pair); [daily_schedule_moments]
    maps it over the days; [commit_capacity] and [probability_of_success]
    sum a prefix or a suffix of the days and apply the normal quantile or
    CDF. *)

From stdpp Require Import base list gmap strings.
From Stdlib Require Import QArith Lqa.
From S2P Require Import Prelude Numerics Entities Distribution Calibrator DeltaB.

Open Scope Q_scope.

(** One planning day: hours, availability and an efficiency triad per
    engineer, and optional pair correlations. *)
Record DailyInputs : Type := {
  h_by_engineer : list (string * Q);
  q_by_engineer : list (string * Q);
  triad_by_engineer : list (string * ThreePointEstimate);
  corr_by_pair : option (list ((string * string) * Q))
}.

Record CommitCapacityEngine : Type := {
  calibrator : Calibrator;
  bias : BiasModel;
  delta_b : Q
}.

(** [tuple(sorted((a, b)))]. *)
Definition canon_pair (a b : string) : string * string :=
  match String.compare a b with
  | Gt => (b, a)
  | _ => (a, b)
  end.

(** [{tuple(sorted(k)): v for k, v in corr_by_pair.items()}]: when two
    entries name the same unordered pair, the later one wins, so the dict
    is searched from its end. *)
Definition canon_corr (c : list ((string * string) * Q)) : list ((string * string) * Q) :=
  rev (map (fun '((a, b), r) => (canon_pair a b, r)) c).

(** [rho_ij], 0 when the pair, or the whole dict, is absent. *)
Definition corr_for (day : DailyInputs) (a b : string) : Q :=
  match corr_by_pair day with
  | None => 0
  | Some c => default 0 (dict_get (canon_pair a b) (canon_corr c))
  end.

(** Every engineer named by one of the three dicts is in all three. *)
Definition dims_ok (day : DailyInputs) : bool :=
  forallb (fun e => dict_has e (q_by_engineer day) && dict_has e (triad_by_engineer day))
          (dict_keys (h_by_engineer day)) &&
  forallb (fun e => dict_has e (h_by_engineer day)) (dict_keys (q_by_engineer day)) &&
  forallb (fun e => dict_has e (h_by_engineer day)) (dict_keys (triad_by_engineer day)).

(** Every triad of the day is valid and every correlation it lists is
    non-negative. *)
Definition day_nonneg (day : DailyInputs) : bool :=
  forallb (fun et => triad_ok (optimistic et.2) (most_likely et.2) (pessimistic et.2))
          (triad_by_engineer day) &&
  match corr_by_pair day with
  | None => true
  | Some c => forallb (fun kv => qle 0 kv.2) c
  end.

(** The invariant of an engine fitted by the calibrator: every bias is
    positive, the factor lies in the search range, the shape is not
    negative. *)
Definition engine_wf (eng : CommitCapacityEngine) : Prop :=
  (forall e a, alphas (bias eng) !! e = Some a -> 0 < a) /\
  0 <= delta_b eng <= cal_delta_hi (calibrator eng) /\ 0 <= cal_shape (calibrator eng).

(** The three dicts of a day name the same engineers: every key of each
    one is a key of the others. *)
Definition same_engineers (day : DailyInputs) : Prop :=
  dict_keys (h_by_engineer day) ⊆ dict_keys (q_by_engineer day) /\
  dict_keys (h_by_engineer day) ⊆ dict_keys (triad_by_engineer day) /\
  dict_keys (q_by_engineer day) ⊆ dict_keys (h_by_engineer day) /\
  dict_keys (triad_by_engineer day) ⊆ dict_keys (h_by_engineer day).

#[export] Instance same_engineers_dec day : Decision (same_engineers day).
Proof. unfold same_engineers. apply _. Defined.

Section WithMath.
Context `{MathLib}.

(** Engineer [e]'s capacity mean [H q mean] and variance [(H q)^2 var]. *)
Definition engineer_moments (eng : CommitCapacityEngine) (day : DailyInputs)
    (e : string) : fresult (Q * Q) :=
  match dict_get e (h_by_engineer day), dict_get e (q_by_engineer day),
        dict_get e (triad_by_engineer day) with
  | Some h, Some q, Some t =>
      let dist := build_distribution (calibrator eng) t e (bias eng) (delta_b eng) in
      let s := h * q in
      Ok (s * mean dist, s * s * variance dist)
  | _, _, _ => Err DimensionMismatch
  end.

(** [2 rho_ij sd_i sd_j] for one pair. *)
Definition pair_term (day : DailyInputs) (x y : string * Q) : Q :=
  2 * corr_for day x.1 y.1 * x.2 * y.2.

(** [sum over i < j] of the pair terms, in dict order. *)
Fixpoint cross_terms (day : DailyInputs) (sds : list (string * Q)) : Q :=
  match sds with
  | [] => 0
  | x :: rest => qsum (pair_term day x <$> rest) + cross_terms day rest
  end.

(** One day's (mean, variance). *)
Definition day_moments (eng : CommitCapacityEngine) (day : DailyInputs) : fresult (Q * Q) :=
  ensure dims_ok day or DimensionMismatch ;;
  let engs := dict_keys (h_by_engineer day) in
  ms <- rmap (engineer_moments eng day) engs ;;
  let sds := zip engs ((fun m => sd_of m.2) <$> ms) in
  Ok (qsum (fst <$> ms), qsum (snd <$> ms) + cross_terms day sds).

(** [daily_schedule_moments(days)]: [(means, variances)], one per day. *)
Definition daily_schedule_moments (eng : CommitCapacityEngine) (days : list DailyInputs)
    : fresult (list Q * list Q) :=
  ms <- rmap (day_moments eng) days ;;
  Ok (fst <$> ms, snd <$> ms).

(** [commit_capacity(days, t, alpha)]: [mu - z(alpha) sigma] over the first
    [t] days. *)
Definition commit_capacity (eng : CommitCapacityEngine) (days : list DailyInputs)
    (t : nat) (alpha : Q) : fresult Q :=
  ensure qlt 0 alpha && qlt alpha 1 or InvalidParameter ;;
  mv <- daily_schedule_moments eng days ;;
  Ok (qsum (take t mv.1) - z_upper alpha * sd_of (qsum (take t mv.2))).

(** [P(C >= x)] for [C ~ N(mu, sd^2)]; a point mass when [sd = 0]. *)
Definition normal_sf (x mu sd : Q) : Q :=
  if qlt 0 sd then 1 - normal_cdf ((x - mu) / sd)
  else if qle x mu then 1 else 0.

(** [probability_of_success(days, t, workload, achieved_to_date)]. *)
Definition probability_of_success (eng : CommitCapacityEngine) (days : list DailyInputs)
    (t : nat) (workload achieved : Q) : fresult Q :=
  ensure qle 0 workload or InvalidParameter ;;
  let remaining := workload - achieved in
  if qle remaining 0 then Ok 1 else
  mv <- daily_schedule_moments eng days ;;
  if (length days <=? t)%nat then Ok 0 else
  Ok (normal_sf remaining (qsum (drop t mv.1)) (sd_of (qsum (drop t mv.2)))).

End WithMath.

(** ** Correlations *)

Lemma canon_pair_sym a b : canon_pair a b = canon_pair b a.
Proof.
  unfold canon_pair. rewrite (String.compare_antisym a b).
  destruct (String.compare b a) eqn:E; cbn; [|done|done].
  by apply String.compare_eq_iff in E as ->.
Qed.

(** The correlation of two engineers does not depend on the order in
    which they are named, nor on the order of the pair in the dict's key;
    a missing pair or a missing dict gives 0. *)
Theorem corr_for_sym day a b : corr_for day a b = corr_for day b a.
Proof. unfold corr_for. by rewrite canon_pair_sym. Qed.

(** ** Shape checks *)

Section Moments.
Context `{MathLib}.
Context (eng : CommitCapacityEngine).

Lemma dims_ok_spec day :
  dims_ok day = true ->
  forall e, e ∈ dict_keys (h_by_engineer day) ->
  dict_has e (q_by_engineer day) = true /\ dict_has e (triad_by_engineer day) = true.
Proof.
  unfold dims_ok. intros Hd e He. apply andb_true_iff in Hd as [Hd _].
  apply andb_true_iff in Hd as [Hd _]. rewrite forallb_forall in Hd.
  apply andb_true_iff, Hd, list_elem_of_In, He.
Qed.

Lemma engineer_moments_ok day e :
  dict_has e (h_by_engineer day) = true -> dict_has e (q_by_engineer day) = true ->
  dict_has e (triad_by_engineer day) = true ->
  exists mv, engineer_moments eng day e = Ok mv.
Proof.
  intros (h & Hh)%dict_get_has (q & Hq)%dict_get_has (t & Ht)%dict_get_has.
  unfold engineer_moments. rewrite Hh, Hq, Ht. by eexists.
Qed.

Lemma day_moments_ok day :
  dims_ok day = true -> exists mv, day_moments eng day = Ok mv.
Proof.
  intros Hd. unfold day_moments. rewrite Hd.
  destruct (rmap_Ok_total (engineer_moments eng day) (dict_keys (h_by_engineer day)))
    as [ms Hms].
  { intros e He. destruct (dims_ok_spec day Hd e He).
    apply engineer_moments_ok; [|done|done]. unfold dict_has. by apply bool_decide_eq_true. }
  rewrite Hms. by eexists.
Qed.

Lemma daily_moments_length days mus vars :
  daily_schedule_moments eng days = Ok (mus, vars) ->
  length mus = length days /\ length vars = length days.
Proof.
  unfold daily_schedule_moments. intros Hm. inv_ok.
  apply rmap_length in H0. injection Hm as <- <-. by rewrite !length_fmap.
Qed.

Lemma cross_terms_uncorrelated day sds :
  corr_by_pair day = None -> cross_terms day sds == 0.
Proof.
  intros Hc. induction sds as [|x sds IH]; cbn [cross_terms]; [reflexivity|].
  rewrite IH. unfold pair_term, corr_for. rewrite Hc.
  assert (Hz : forall l : list (string * Q), qsum ((fun y => 2 * 0 * x.2 * y.2) <$> l) == 0).
  { induction l as [|y l IHl]; [reflexivity|]. cbn [fmap list_fmap]. rewrite qsum_cons, IHl. ring. }
  rewrite Hz. ring.
Qed.

Lemma cross_terms_nonneg day sds :
  (forall a b, 0 <= corr_for day a b) -> Forall (fun x => 0 <= x.2) sds ->
  0 <= cross_terms day sds.
Proof.
  intros Hc. induction 1 as [|x sds Hx Hsds IH]; cbn [cross_terms]; [lra|].
  enough (0 <= qsum (pair_term day x <$> sds)) by lra.
  apply qsum_nonneg, Forall_fmap. eapply Forall_impl; [exact Hsds|]. intros y Hy.
  cbn. unfold pair_term. pose proof (Hc x.1 y.1).
  apply Qmult_le_0_compat; [|done]. apply Qmult_le_0_compat; [|done]. lra.
Qed.

Lemma engineer_moments_var_nonneg day e mv :
  0 <= cal_shape (calibrator eng) ->
  (forall e' t, dict_get e' (triad_by_engineer day) = Some t -> triad_wf t) ->
  engineer_moments eng day e = Ok mv -> 0 <= mv.2.
Proof.
  intros Hs Hwf. unfold engineer_moments.
  destruct (dict_get e (h_by_engineer day)) as [h|], (dict_get e (q_by_engineer day)) as [q|],
    (dict_get e (triad_by_engineer day)) as [t|] eqn:Et; try discriminate.
  intros [= <-]. cbn. apply Qmult_le_0_compat; [apply qsquare_nonneg|].
  apply variance_nonneg; [exact (Hwf e t Et)|exact Hs].
Qed.

(** A day whose triads are valid and whose correlations are all
    non-negative has a non-negative variance. *)
Lemma day_moments_var_nonneg day mu var :
  0 <= cal_shape (calibrator eng) ->
  (forall e t, dict_get e (triad_by_engineer day) = Some t -> triad_wf t) ->
  (forall a b, 0 <= corr_for day a b) ->
  day_moments eng day = Ok (mu, var) -> 0 <= var.
Proof.
  intros Hs Hwf Hc Hd. unfold day_moments in Hd. destruct (dims_ok day); [|discriminate].
  destruct (rmap _ _) as [x|] eqn:H1; [|discriminate]. injection Hd as _ <-.
  apply rmap_Ok_iff in H1.
  assert (Hv : Forall (fun m => 0 <= m.2) x).
  { eapply Forall2_Forall_r; [exact H1|]. apply Forall_true. intros e m.
    apply engineer_moments_var_nonneg; done. }
  enough (0 <= qsum (snd <$> x) /\ 0 <= cross_terms day
            (zip (dict_keys (h_by_engineer day)) ((fun m => sd_of m.2) <$> x))) by lra.
  split; [apply qsum_nonneg, Forall_fmap; exact Hv|].
  apply cross_terms_nonneg; [exact Hc|]. apply Forall_forall. intros [e sd] Hin.
  apply elem_of_zip_r, list_elem_of_fmap in Hin as (m & -> & _). apply sd_of_nonneg.
Qed.

Lemma day_nonneg_triads day :
  day_nonneg day = true ->
  forall e t, dict_get e (triad_by_engineer day) = Some t -> triad_wf t.
Proof.
  unfold day_nonneg. intros (Ht & _)%andb_true_iff e t Hg%dict_get_elem.
  rewrite forallb_forall in Ht. apply list_elem_of_In, Ht in Hg.
  by apply (make_triad_wf _ _ _ _ (ltac:(unfold make_triad; rewrite Hg; reflexivity))).
Qed.

Lemma day_nonneg_corr day :
  day_nonneg day = true -> forall a b, 0 <= corr_for day a b.
Proof.
  unfold day_nonneg, corr_for. intros (_ & Hc)%andb_true_iff a b.
  destruct (corr_by_pair day) as [c|]; [|lra].
  destruct (dict_get _ _) as [r|] eqn:Hg; cbn; [|lra].
  apply dict_get_elem, list_elem_of_In in Hg. unfold canon_corr in Hg. rewrite <- in_rev in Hg.
  apply in_map_iff in Hg as ([[x y] r'] & [= _ <-] & Hin).
  rewrite forallb_forall in Hc. apply Hc in Hin. by apply qle_spec in Hin.
Qed.

(** On days whose triads are valid and correlations non-negative, every
    daily variance is non-negative. *)
Lemma daily_moments_vars_nonneg days mus vars :
  0 <= cal_shape (calibrator eng) -> forallb day_nonneg days = true ->
  daily_schedule_moments eng days = Ok (mus, vars) -> Forall (Qle 0) vars.
Proof.
  intros Hs Hd Hm. unfold daily_schedule_moments in Hm.
  destruct (rmap _ _) as [ms|] eqn:Hr; [|discriminate]. injection Hm as _ <-.
  apply rmap_Ok_iff in Hr. apply Forall_fmap. eapply Forall2_Forall_r; [exact Hr|].
  apply Forall_forall. intros day Hin [mu var] Hdm. rewrite forallb_forall in Hd.
  apply list_elem_of_In, Hd in Hin.
  exact (day_moments_var_nonneg day mu var Hs (day_nonneg_triads day Hin)
           (day_nonneg_corr day Hin) Hdm).
Qed.

(** [dims_ok] checks exactly that the three dicts name the same
    engineers. *)
Lemma dims_ok_same_engineers day : dims_ok day = true <-> same_engineers day.
Proof.
  unfold dims_ok, same_engineers, dict_has, subseteq, list_subseteq.
  rewrite !andb_true_iff, !forallb_forall. split.
  - intros [[H1 H2] H3]. split_and!; intros e He%list_elem_of_In.
    + apply H1, andb_true_iff in He as [He _]. by apply bool_decide_eq_true in He.
    + apply H1, andb_true_iff in He as [_ He]. by apply bool_decide_eq_true in He.
    + apply H2 in He. by apply bool_decide_eq_true in He.
    + apply H3 in He. by apply bool_decide_eq_true in He.
  - intros (H1 & H2 & H3 & H4). split_and!; intros e He%list_elem_of_In;
      rewrite ?andb_true_iff, ?bool_decide_eq_true; auto.
Qed.

(** A day is computed exactly when its three dicts name the same
    engineers (each key of [H], [q] and the triads is a key of the other
    two); otherwise it raises [DimensionMismatch]. *)
Theorem day_moments_outcome day :
  (same_engineers day -> exists mv, day_moments eng day = Ok mv) /\
  (~ same_engineers day -> day_moments eng day = Err DimensionMismatch).
Proof.
  rewrite <- dims_ok_same_engineers. split; [apply day_moments_ok|].
  intros Hd. unfold day_moments. by destruct (dims_ok day).
Qed.

(** Without correlations a day's mean and variance are the sums of the
    engineers' means [H q mean] and variances [(H q)^2 var]. *)
Theorem day_moments_uncorrelated day mu var :
  corr_by_pair day = None -> day_moments eng day = Ok (mu, var) ->
  exists ms, rmap (engineer_moments eng day) (dict_keys (h_by_engineer day)) = Ok ms /\
    mu = qsum (fst <$> ms) /\ var == qsum (snd <$> ms).
Proof.
  intros Hc Hd. unfold day_moments in Hd. inv_ok. exists x. split; [done|].
  injection Hd as <- <-. split; [done|]. rewrite cross_terms_uncorrelated by done. ring.
Qed.

(** A schedule whose days all name the same engineers in their three
    dicts is computed. *)
Lemma daily_moments_ok days :
  forallb dims_ok days = true -> exists mv, daily_schedule_moments eng days = Ok mv.
Proof.
  intros Hd. unfold daily_schedule_moments.
  destruct (rmap_Ok_total (day_moments eng) days) as [ms ->]; [|by eexists].
  intros day Hin. apply day_moments_ok. rewrite forallb_forall in Hd.
  by apply Hd, list_elem_of_In.
Qed.

End Moments.

(** ** Fitted engines *)

(** An engine built from a fitted bias and a fitted factor satisfies
    [engine_wf], and every distribution it builds on a valid triad is
    well formed. *)
Lemma fitted_engine_wf `{MathLib} cal obs target b d :
  Forall (fun o => 0 < actual_hours o) obs -> obs_triads_wf obs ->
  0 <= cal_shape cal -> 0 <= target -> target < 1 -> 0 < cal_delta_hi cal ->
  cal_delta_hi cal / inject_Z (2 ^ Z.of_nat (cal_max_iter cal)) <= cal_tol cal ->
  fit_bias obs = Ok b -> fit_delta_b cal obs b target = Ok d ->
  engine_wf {| calibrator := cal; bias := b; delta_b := d |} /\
  forall t e, triad_wf t -> dist_wf (build_distribution cal t e b d).
Proof.
  intros Hact Hwf Hs Ht0 Ht1 Hhi Hcap Hb Hd.
  pose proof (fit_bias_alphas_pos _ _ Hact Hb) as Hpos.
  destruct (fit_delta_b_contract cal obs b target d Hwf Hs Ht0 Ht1 Hhi Hcap Hd) as ([Hd0 Hd1] & _).
  split; [unfold engine_wf; cbn; split_and!; done|].
  intros t e Ht. unfold dist_wf, build_distribution; cbn. split_and!; try done.
  by apply alpha_for_pos.
Qed.

(** ** Commit capacity *)

Section Commit.
Context `{MathLib}.
Context (eng : CommitCapacityEngine) (days : list DailyInputs).

Lemma commit_capacity_Ok t alpha c :
  commit_capacity eng days t alpha = Ok c ->
  0 < alpha /\ alpha < 1 /\
  exists mus vars, daily_schedule_moments eng days = Ok (mus, vars) /\
    c = qsum (take t mus) - z_upper alpha * sd_of (qsum (take t vars)).
Proof.
  unfold commit_capacity. intros Hc. inv_ok. qbool.
  destruct x as [mus vars]. split_and!; [done|done|]. by exists mus, vars.
Qed.

(** With computable days, [commit_capacity] returns for every [alpha] in
    [(0, 1)] and raises [InvalidParameter] for the others. *)
Lemma commit_capacity_cases t alpha mv :
  daily_schedule_moments eng days = Ok mv ->
  (0 < alpha -> alpha < 1 -> exists c, commit_capacity eng days t alpha = Ok c) /\
  (alpha <= 0 \/ 1 <= alpha -> commit_capacity eng days t alpha = Err InvalidParameter).
Proof.
  intros Hm. unfold commit_capacity. split.
  - intros H0 H1. replace (qlt 0 alpha && qlt alpha 1)%bool with true
      by (symmetry; apply andb_true_iff; rewrite !qlt_spec; done).
    rewrite Hm. by eexists.
  - intros Ha. destruct (qlt 0 alpha && qlt alpha 1)%bool eqn:E; [|done]. qbool. lra.
Qed.

Lemma commit_capacity_t0_value alpha c :
  commit_capacity eng days 0 alpha = Ok c -> c == 0.
Proof.
  intros (_ & _ & mus & vars & _ & ->)%commit_capacity_Ok.
  rewrite sd_of_zero. change (qsum (take 0 mus)) with 0. ring.
Qed.

(** Through day 0 nothing is summed and the commit level is exactly 0,
    for every [alpha] in [(0, 1)] and every well-formed schedule. *)
Theorem commit_capacity_zero alpha mv :
  daily_schedule_moments eng days = Ok mv -> 0 < alpha -> alpha < 1 ->
  exists c, commit_capacity eng days 0 alpha = Ok c /\ c == 0.
Proof.
  intros Hm H0 H1. unfold commit_capacity.
  replace (qlt 0 alpha && qlt alpha 1)%bool with true
    by (symmetry; apply andb_true_iff; rewrite !qlt_spec; done).
  rewrite Hm. eexists. split; [reflexivity|]. cbn.
  rewrite sd_of_zero. change (qsum (take 0 mv.1)) with 0. ring.
Qed.

Lemma commit_capacity_alpha_le t a1 a2 c1 c2 :
  commit_capacity eng days t a1 = Ok c1 -> commit_capacity eng days t a2 = Ok c2 ->
  a1 <= a2 -> c1 <= c2.
Proof.
  intros (H10 & H11 & mus & vars & Hm & ->)%commit_capacity_Ok
         (H20 & H21 & mus' & vars' & Hm' & ->)%commit_capacity_Ok Ha.
  rewrite Hm in Hm'. injection Hm' as <- <-.
  pose proof (z_upper_anti a1 a2 H10 Ha H21).
  pose proof (sd_of_nonneg (qsum (take t vars))). nra.
Qed.

(** C8: the commit level never decreases as the accepted shortfall
    probability [alpha] grows. *)
Theorem commit_capacity_mono_alpha t a1 a2 c1 c2 :
  commit_capacity eng days t a1 = Ok c1 -> commit_capacity eng days t a2 = Ok c2 ->
  a1 <= a2 -> c1 <= c2.
Proof. apply commit_capacity_alpha_le. Qed.

(** An [alpha] outside [(0, 1)] raises [InvalidParameter], whatever
    the days. *)
Theorem commit_capacity_invalid t alpha :
  alpha <= 0 \/ 1 <= alpha -> commit_capacity eng days t alpha = Err InvalidParameter.
Proof.
  intros Ha. unfold commit_capacity.
  destruct (qlt 0 alpha && qlt alpha 1)%bool eqn:E; [|done].
  qbool. lra.
Qed.

End Commit.

(** ** Probability of success *)

Section Success.
Context `{MathLib}.
Context (eng : CommitCapacityEngine) (days : list DailyInputs).

Lemma normal_sf_range x mu sd : 0 <= normal_sf x mu sd <= 1.
Proof.
  unfold normal_sf. destruct (qlt 0 sd); [apply survival_range|].
  destruct (qle x mu); split; discriminate.
Qed.

(** The survival function decreases in the threshold. *)
Lemma normal_sf_anti x1 x2 mu sd : x1 <= x2 -> normal_sf x2 mu sd <= normal_sf x1 mu sd.
Proof.
  intros Hx. unfold normal_sf. destruct (qlt 0 sd) eqn:Esd; qbool.
  - apply survival_anti. unfold Qdiv. apply Qmult_le_compat_r; [lra|].
    apply Qinv_le_0_compat. lra.
  - destruct (qle x2 mu) eqn:E2, (qle x1 mu) eqn:E1; qbool; try discriminate; lra.
Qed.

Lemma probability_Ok t w a p :
  probability_of_success eng days t w a = Ok p ->
  0 <= w /\
  ((w - a <= 0 /\ p = 1) \/
   (0 < w - a /\ exists mus vars, daily_schedule_moments eng days = Ok (mus, vars) /\
      p = if (length days <=? t)%nat then 0
          else normal_sf (w - a) (qsum (drop t mus)) (sd_of (qsum (drop t vars))))).
Proof.
  unfold probability_of_success. intros Hp. inv_ok. qbool. split; [done|].
  destruct (qle (w - a) 0) eqn:Er; qbool; [left; by inv_ok|right].
  inv_ok. destruct x as [mus vars]. split; [done|]. exists mus, vars.
  split; [done|]. by destruct (length days <=? t)%nat; inv_ok.
Qed.

Lemma probability_range_aux t w a p :
  probability_of_success eng days t w a = Ok p -> 0 <= p <= 1.
Proof.
  intros (_ & [[_ ->] | (_ & mus & vars & _ & ->)])%probability_Ok; [split; discriminate|].
  destruct (length days <=? t)%nat; [split; discriminate|apply normal_sf_range].
Qed.

(** With computable days, [probability_of_success] returns for every
    non-negative workload. *)
Lemma probability_total t w a mv :
  daily_schedule_moments eng days = Ok mv -> 0 <= w ->
  exists p, probability_of_success eng days t w a = Ok p.
Proof.
  intros Hm Hw. unfold probability_of_success.
  replace (qle 0 w) with true by (symmetry; by apply qle_spec). cbn.
  destruct (qle (w - a) 0); [by eexists|]. rewrite Hm. cbn.
  destruct (length days <=? t)%nat; by eexists.
Qed.

(** The success probability decreases in the remaining requirement
    [workload - achieved_to_date]. *)
Lemma probability_anti_remaining t w1 a1 w2 a2 p1 p2 :
  probability_of_success eng days t w1 a1 = Ok p1 ->
  probability_of_success eng days t w2 a2 = Ok p2 ->
  w1 - a1 <= w2 - a2 -> p2 <= p1.
Proof.
  intros Hp1 Hp2 Hr. pose proof (probability_range_aux _ _ _ _ Hp2) as [_ Hle].
  apply probability_Ok in Hp1 as (_ & [[? ->] | (? & mus & vars & Hm & ->)]); [done|].
  apply probability_Ok in Hp2 as (_ & [[? _] | (? & mus' & vars' & Hm' & ->)]); [lra|].
  rewrite Hm in Hm'. injection Hm' as <- <-.
  destruct (length days <=? t)%nat; [lra|]. by apply normal_sf_anti.
Qed.

(** Once the achieved capacity meets a non-negative workload, the
    probability of success is exactly 1, whatever the days. *)
Theorem probability_met t w a :
  0 <= w -> w <= a -> probability_of_success eng days t w a = Ok 1.
Proof.
  intros Hw Ha. unfold probability_of_success.
  replace (qle 0 w) with true by (symmetry; by apply qle_spec).
  replace (qle (w - a) 0) with true by (symmetry; apply qle_spec; lra). done.
Qed.

(** The probability of success is a probability: it lies in [[0, 1]]. *)
Theorem probability_range t w a p :
  probability_of_success eng days t w a = Ok p -> 0 <= p <= 1.
Proof. apply probability_range_aux. Qed.

(** C24: for fixed days and [t], a larger workload never makes success more
    likely. *)
Theorem probability_anti_workload t w1 w2 a p1 p2 :
  probability_of_success eng days t w1 a = Ok p1 ->
  probability_of_success eng days t w2 a = Ok p2 ->
  w1 <= w2 -> p2 <= p1.
Proof. intros H1 H2 Hw. apply (probability_anti_remaining t w1 a w2 a); [done|done|lra]. Qed.

(** For fixed days and [t], more capacity achieved to date never makes
    success less likely. *)
Theorem probability_mono_achieved t w a1 a2 p1 p2 :
  probability_of_success eng days t w a1 = Ok p1 ->
  probability_of_success eng days t w a2 = Ok p2 ->
  a1 <= a2 -> p1 <= p2.
Proof. intros H1 H2 Ha. apply (probability_anti_remaining t w a2 w a1); [done|done|lra]. Qed.

(** C26: a negative workload raises [InvalidParameter], even when the
    achieved capacity already exceeds it. *)
Theorem probability_invalid t w a :
  w < 0 -> probability_of_success eng days t w a = Err InvalidParameter.
Proof.
  intros Hw. unfold probability_of_success.
  replace (qle 0 w) with false by (symmetry; by apply qle_false). done.
Qed.

(** With work still remaining and no scheduled day left after [t],
    success has probability exactly 0. *)
Theorem probability_no_days_left t w a mv :
  0 <= w -> a < w -> daily_schedule_moments eng days = Ok mv -> (length days <= t)%nat ->
  probability_of_success eng days t w a = Ok 0.
Proof.
  intros Hw Ha Hm Ht. unfold probability_of_success.
  replace (qle 0 w) with true by (symmetry; by apply qle_spec).
  replace (qle (w - a) 0) with false by (symmetry; apply qle_false; lra).
  rewrite Hm. cbn. by replace (length days <=? t)%nat with true by (symmetry; by apply Nat.leb_le).
Qed.

End Success.

(** ** Witnesses *)

Definition example_engine : CommitCapacityEngine :=
  {| calibrator := default_calibrator 4; bias := {| alphas := <["e1" := 1.2]> ∅ |};
     delta_b := 0.5 |}.

Definition example_day (corr : option (list ((string * string) * Q))) : DailyInputs :=
  {| h_by_engineer := [("e1", 6); ("e2", 7.5)];
     q_by_engineer := [("e1", 0.95); ("e2", 0.9)];
     triad_by_engineer := [("e1", {| optimistic := 0.8; most_likely := 1; pessimistic := 1.3 |});
                           ("e2", {| optimistic := 0.7; most_likely := 0.9; pessimistic := 1.2 |})];
     corr_by_pair := corr |}.

Definition example_days : list DailyInputs :=
  [example_day (Some [(("e2", "e1"), 0.25)]); example_day None].

(** The value of a computation that returns, and [d] otherwise. *)
Definition ok_or {A} (d : A) (m : fresult A) : A :=
  match m with Ok a => a | Err _ => d end.

Definition example_moments : list Q * list Q :=
  Eval vm_compute in ok_or ([], []) (daily_schedule_moments (H:=coarse_math) example_engine example_days).

Definition example_day_mv : Q * Q :=
  Eval vm_compute in ok_or (0, 0) (day_moments (H:=coarse_math) example_engine (example_day None)).

Definition example_commit (alpha : Q) : Q :=
  ok_or 0 (commit_capacity (H:=coarse_math) example_engine example_days 2 alpha).

Definition example_success (w a : Q) : Q :=
  ok_or 0 (probability_of_success (H:=coarse_math) example_engine example_days 1 w a).

Lemma corr_for_sym_witness :
  corr_for (example_day (Some [(("e2", "e1"), 0.25)])) "e1" "e2" =
  corr_for (example_day (Some [(("e2", "e1"), 0.25)])) "e2" "e1".
Proof. apply corr_for_sym. Defined.

Lemma day_moments_outcome_witness :
  (exists mv, day_moments (H:=coarse_math) example_engine (example_day None) = Ok mv) /\
  day_moments (H:=coarse_math) example_engine
    {| h_by_engineer := [("e1", 6)]; q_by_engineer := [("e1", 0.95); ("e2", 0.9)];
       triad_by_engineer := triad_by_engineer (example_day None); corr_by_pair := None |}
  = Err DimensionMismatch.
Proof. split; apply day_moments_outcome; apply (bool_decide_unpack _); vm_compute; exact I. Defined.

Lemma day_moments_uncorrelated_witness :
  exists ms, rmap (engineer_moments example_engine (example_day None))
                  (dict_keys (h_by_engineer (example_day None))) = Ok ms /\
    example_day_mv.1 = qsum (fst <$> ms) /\ example_day_mv.2 == qsum (snd <$> ms).
Proof. apply day_moments_uncorrelated; reflexivity. Defined.

Lemma commit_capacity_zero_witness :
  exists c, commit_capacity (H:=coarse_math) example_engine example_days 0 0.1 = Ok c /\ c == 0.
Proof. apply (commit_capacity_zero _ _ _ example_moments); [reflexivity | qcompute ..]. Defined.

Lemma commit_capacity_mono_alpha_witness : example_commit 0.05 <= example_commit 0.2.
Proof. apply (commit_capacity_mono_alpha example_engine example_days 2 0.05 0.2); qcompute. Defined.

Lemma commit_capacity_invalid_witness :
  commit_capacity (H:=coarse_math) example_engine example_days 1 1.5 = Err InvalidParameter.
Proof. apply commit_capacity_invalid. right. qcompute. Defined.

Lemma probability_met_witness :
  probability_of_success (H:=coarse_math) example_engine example_days 1 20 25 = Ok 1.
Proof. apply probability_met; qcompute. Defined.

Lemma probability_range_witness : 0 <= example_success 20 13 <= 1.
Proof. apply (probability_range example_engine example_days 1 20 13). reflexivity. Defined.

Lemma probability_anti_workload_witness : example_success 25 13 <= example_success 20 13.
Proof. apply (probability_anti_workload example_engine example_days 1 20 25 13); qcompute. Defined.

Lemma probability_mono_achieved_witness : example_success 20 5 <= example_success 20 13.
Proof. apply (probability_mono_achieved example_engine example_days 1 20 5 13); qcompute. Defined.

Lemma probability_invalid_witness :
  probability_of_success (H:=coarse_math) example_engine example_days 1 (-1) 0 = Err InvalidParameter.
Proof. apply probability_invalid. qcompute. Defined.

Lemma probability_no_days_left_witness :
  probability_of_success (H:=coarse_math) example_engine example_days 2 20 13 = Ok 0.
Proof.
  apply (probability_no_days_left _ _ _ _ _ example_moments); [qcompute|qcompute|reflexivity|cbn; lia].
Defined.
