(* ===== verification/Quickstart.v ===== *)
(** * Quickstart: the script [src/examples/quickstart.py]

    The script fits a bias model and an uncertainty factor on six
    observations, builds one distribution, computes the moments of a
    two-day schedule and prints commit levels and success probabilities.
    Each part of the script is a definition here, and [quickstart] runs
    them in the script's order and returns what it prints (the values, not
    their formatting).  [dist.sample(n=5)] (line 38) draws random numbers
    and is left out.  [math.sqrt] on line 58 raises [ValueError] on a
    negative variance, so the script has an error type of its own. *)

From stdpp Require Import base list gmap strings.
From Stdlib Require Import QArith Lqa.
From S2P Require Import Prelude Numerics Entities Distribution Calibrator DeltaB Engine.

Open Scope Q_scope.
Open Scope string_scope.

(** An exception of the package, or [math.sqrt]'s [ValueError]. *)
Inductive ScriptError : Type :=
| Forecast (e : ForecastError)
| MathDomainError.

Definition lift {A} (m : fresult A) : result ScriptError A :=
  match m with
  | Ok a => Ok a
  | Err e => Err (Forecast e)
  end.

(** What the script prints, in order. *)
Record Report : Type := {
  rep_alpha_e1 : Q;
  rep_alpha_e2 : Q;
  rep_delta_b : Q;
  rep_mean : Q;
  rep_var : Q;
  rep_days : list (nat * Q * Q * Q);        (** day, mu_C, var_C, sd_C *)
  rep_commit : list (nat * Q * Q);          (** t, alpha, C_commit *)
  rep_success : list (nat * Q * Q * Q)      (** t, achieved, W, P_success *)
}.

Section Script.
Context `{MathLib}.

(** Lines 14-21: [obs = [BiasObservation(...), ...]]. *)
Definition qs_obs : fresult (list BiasObservation) :=
  rmap id [
    make_observation "e1" 6 9 (Some 4) (Some 6) (Some 18);
    make_observation "e1" 8 24 (Some 6) (Some 8) (Some 14);
    make_observation "e2" 3 2.5 (Some 2) (Some 3) (Some 5);
    make_observation "e2" 4 3.2 None None None;
    make_observation "e1" 8.0 10.2 (Some 6.0) (Some 8.0) (Some 12.0);
    make_observation "e2" 6.0 5.1 (Some 5.0) (Some 6.0) (Some 9.0)].

(** Line 23: [cal = default_calibrator(shape=4.0)]. *)
Definition qs_cal : Calibrator := default_calibrator 4.0.

(** Line 24: [bias = cal.fit_bias(obs)]. *)
Definition qs_bias (os : list BiasObservation) : fresult BiasModel := fit_bias os.

(** Line 25: [delta_b = cal.fit_delta_b(obs, bias, target_coverage=0.9)]. *)
Definition qs_delta_b (os : list BiasObservation) (b : BiasModel) : fresult Q :=
  fit_delta_b qs_cal os b 0.9.

(** Line 27: [engine = CommitCapacityEngine(calibrator=cal, bias=bias, delta_b=delta_b)]. *)
Definition qs_engine (b : BiasModel) (d : Q) : CommitCapacityEngine :=
  {| calibrator := qs_cal; bias := b; delta_b := d |}.

(** Line 29: [triad = ThreePointEstimate(optimistic=5, most_likely=8, pessimistic=14)]. *)
Definition qs_triad : fresult ThreePointEstimate := make_triad 5 8 14.

(** Line 30: [dist = cal.build_distribution(triad, engineer_id="e1", bias=bias, delta_b=delta_b)]. *)
Definition qs_dist (t : ThreePointEstimate) (b : BiasModel) (d : Q) : Distribution :=
  build_distribution qs_cal t "e1" b d.

(** Lines 33-37: the printed [alpha_e1], [alpha_e2], [delta_b], [mean], [var]. *)
Definition qs_summary (b : BiasModel) (d : Q) (dist : Distribution) : Q * Q * Q * Q * Q :=
  (alpha_for b "e1", alpha_for b "e2", d, mean dist, variance dist).

(** Lines 42-47: the first day. *)
Definition qs_day1 : fresult DailyInputs :=
  t1 <- make_triad 0.8 1.0 1.3 ;; t2 <- make_triad 0.7 0.9 1.2 ;;
  Ok {| h_by_engineer := [("e1", 6.0); ("e2", 7.5)];
        q_by_engineer := [("e1", 0.95); ("e2", 0.90)];
        triad_by_engineer := [("e1", t1); ("e2", t2)];
        corr_by_pair := Some [(("e1", "e2"), 0.25)] |}.

(** Lines 48-53: the second day, without correlations. *)
Definition qs_day2 : fresult DailyInputs :=
  t1 <- make_triad 0.7 0.95 1.25 ;; t2 <- make_triad 0.65 0.9 1.2 ;;
  Ok {| h_by_engineer := [("e1", 6.0); ("e2", 7.5)];
        q_by_engineer := [("e1", 0.90); ("e2", 0.85)];
        triad_by_engineer := [("e1", t1); ("e2", t2)];
        corr_by_pair := None |}.

(** Lines 41-54: [days = [DailyInputs(...), DailyInputs(...)]]. *)
Definition qs_days : fresult (list DailyInputs) :=
  d1 <- qs_day1 ;; d2 <- qs_day2 ;; Ok [d1; d2].

(** Lines 56-58: [for t, (m, v) in enumerate(zip(mus, vars_), start=1)],
    printing [m], [v] and [math.sqrt(v)], which raises on a negative [v]. *)
Fixpoint day_lines (t : nat) (mvs : list (Q * Q)) : result ScriptError (list (nat * Q * Q * Q)) :=
  match mvs with
  | [] => Ok []
  | (m, v) :: rest =>
      if qlt v 0 then Err MathDomainError else
      ls <- day_lines (S t) rest ;; Ok ((t, m, v, math_sqrt v) :: ls)
  end.

(** Lines 60-80: one row per [t] in [t_values] and, inside, per [a] in
    [alphas]; the first exception ends the report. *)
Definition report_commit (eng : CommitCapacityEngine) (days : list DailyInputs)
    (t_values : list nat) (alphas : list Q) : fresult (list (nat * Q * Q)) :=
  ls <- rmap (fun t => rmap (fun a => c <- commit_capacity eng days t a ;; Ok (t, a, c)) alphas)
             t_values ;;
  Ok (concat ls).

(** Line 93: [achieved.get(t_val, 0.0)]. *)
Definition achieved_at (achieved : list (nat * Q)) (t : nat) : Q :=
  default 0 (dict_get t achieved).

(** Lines 82-95. *)
Definition report_success (eng : CommitCapacityEngine) (days : list DailyInputs)
    (t_values : list nat) (workload : Q) (achieved : list (nat * Q))
    : fresult (list (nat * Q * Q * Q)) :=
  rmap (fun t => let a := achieved_at achieved t in
                 p <- probability_of_success eng days t workload a ;; Ok (t, a, workload, p))
       t_values.

(** The whole script, lines 14-102, without the random samples of line 38. *)
Definition quickstart : result ScriptError Report :=
  os <- lift qs_obs ;;
  b <- lift (qs_bias os) ;;
  d <- lift (qs_delta_b os b) ;;
  let eng := qs_engine b d in
  t <- lift qs_triad ;;
  let dist := qs_dist t b d in
  let '(a1, a2, d', m, v) := qs_summary b d dist in
  days <- lift qs_days ;;
  mv <- lift (daily_schedule_moments eng days) ;;
  dls <- day_lines 1 (zip mv.1 mv.2) ;;
  cls <- lift (report_commit eng days [0; 1; 2]%nat [0.10; 0.20; 0.05]) ;;
  sls <- lift (report_success eng days [0; 1]%nat 20.0 [(0%nat, 0.0); (1%nat, 13.0)]) ;;
  Ok {| rep_alpha_e1 := a1; rep_alpha_e2 := a2; rep_delta_b := d'; rep_mean := m;
        rep_var := v; rep_days := dls; rep_commit := cls; rep_success := sls |}.

End Script.


(** ** The script's loops *)

Section Loops.
Context `{MathLib}.

Lemma day_lines_lines t mvs ls :
  day_lines t mvs = Ok ls ->
  length ls = length mvs /\
  forall i m v, mvs !! i = Some (m, v) -> ls !! i = Some ((t + i)%nat, m, v, math_sqrt v).
Proof.
  revert t ls. induction mvs as [|[m v] mvs IH]; intros t ls Hl; cbn in Hl.
  { injection Hl as <-. split; [done|]. intros i m v Hi. by rewrite lookup_nil in Hi. }
  destruct (qlt v 0); [discriminate|]. inv_ok. subst ls.
  destruct (IH _ _ H0) as [Hlen Hi]. split; [cbn; by rewrite Hlen|].
  intros [|i] m' v' Hmv.
  - cbn in Hmv |- *. injection Hmv as <- <-. by rewrite Nat.add_0_r.
  - change (mvs !! i = Some (m', v')) in Hmv.
    change (x !! i = Some ((t + S i)%nat, m', v', math_sqrt v')).
    rewrite (Hi _ _ _ Hmv). do 4 f_equal. lia.
Qed.

(** C11: the day loop prints one line per (mean, variance) pair, numbered
    from its start value in order, with the square root of the variance. *)
Theorem day_lines_spec t mvs ls :
  day_lines t mvs = Ok ls ->
  length ls = length mvs /\
  forall i m v, mvs !! i = Some (m, v) -> ls !! i = Some ((t + i)%nat, m, v, math_sqrt v).
Proof. apply day_lines_lines. Qed.

Lemma day_lines_Err t mvs e :
  day_lines t mvs = Err e <-> e = MathDomainError /\ Exists (fun mv => mv.2 < 0) mvs.
Proof.
  revert t. induction mvs as [|[m v] mvs IH]; intros t; cbn.
  { split; [discriminate|]. intros [_ Hex]. inversion Hex. }
  destruct (qlt v 0) eqn:Ev; qbool.
  - split; [intros [= <-]; split; [done|by apply Exists_cons_hd] | by intros [-> _]].
  - rewrite Exists_cons. cbn. destruct (day_lines (S t) mvs) eqn:Er; cbn.
    + split; [discriminate|]. intros [-> [Hv|Hex]]; [lra|].
      pose proof (proj2 (IH (S t)) (conj eq_refl Hex)) as Hx. congruence.
    + specialize (IH (S t)). rewrite Er in IH. split.
      * intros [= ->]. destruct (proj1 IH eq_refl) as [-> Hex]. split; [done|by right].
      * intros [-> [Hv|Hex]]; [lra|]. by apply IH.
Qed.

(** C34: the day loop raises [ValueError] exactly when some day's variance
    is negative, and raises nothing else. *)
Theorem day_lines_error t mvs e :
  day_lines t mvs = Err e <-> e = MathDomainError /\ Exists (fun mv => mv.2 < 0) mvs.
Proof. apply day_lines_Err. Qed.

End Loops.

Section Reports.
Context `{MathLib}.
Context (eng : CommitCapacityEngine) (days : list DailyInputs).

Lemma report_commit_inner t alphas l :
  rmap (fun a => c <- commit_capacity eng days t a ;; Ok (t, a, c)) alphas = Ok l ->
  Forall2 (fun ta row => row.1.1 = ta.1 /\ row.1.2 = ta.2 /\
                         commit_capacity eng days ta.1 ta.2 = Ok row.2)
          (map (pair t) alphas) l.
Proof.
  intros Hl. apply rmap_Ok_iff in Hl. induction Hl as [|a row alphas l Hrow _ IH]; cbn; constructor; [|done].
  apply rbind_Ok in Hrow as (c & Hc & [= <-]). done.
Qed.

Lemma report_commit_Forall2 ts alphas rows :
  report_commit eng days ts alphas = Ok rows ->
  length rows = (length ts * length alphas)%nat /\
  Forall2 (fun ta row => row.1.1 = ta.1 /\ row.1.2 = ta.2 /\
                         commit_capacity eng days ta.1 ta.2 = Ok row.2)
          (list_prod ts alphas) rows.
Proof.
  unfold report_commit. intros Hr. inv_ok. subst rows. apply rmap_Ok_iff in H0.
  assert (HF : Forall2 (fun ta row => row.1.1 = ta.1 /\ row.1.2 = ta.2 /\
                         commit_capacity eng days ta.1 ta.2 = Ok row.2)
                (list_prod ts alphas) (concat x)).
  { induction H0 as [|t l ts ls Hl _ IH]; cbn; [constructor|].
    apply Forall2_app; [by apply report_commit_inner|exact IH]. }
  split; [|exact HF]. rewrite <- (Forall2_length _ _ _ HF). apply length_prod.
Qed.

(** C27: the commit report has one row per pair [(t, alpha)], [t] outer and
    [alpha] inner as in the nested loops, each carrying that pair's
    [commit_capacity]. *)
Theorem report_commit_rows ts alphas rows :
  report_commit eng days ts alphas = Ok rows ->
  length rows = (length ts * length alphas)%nat /\
  Forall2 (fun ta row => row.1.1 = ta.1 /\ row.1.2 = ta.2 /\
                         commit_capacity eng days ta.1 ta.2 = Ok row.2)
          (list_prod ts alphas) rows.
Proof. apply report_commit_Forall2. Qed.

(** C29: on computable days the commit report is produced when every
    [alpha] lies in [(0, 1)], and raises [InvalidParameter] as soon as one
    does not (and some [t] is asked for). *)
Theorem report_commit_outcome ts alphas mv :
  daily_schedule_moments eng days = Ok mv ->
  (Forall (fun a => 0 < a /\ a < 1) alphas -> exists rows, report_commit eng days ts alphas = Ok rows) /\
  (ts <> [] -> Exists (fun a => a <= 0 \/ 1 <= a) alphas ->
   report_commit eng days ts alphas = Err InvalidParameter).
Proof.
  intros Hm. unfold report_commit. split.
  - intros Hall. destruct (rmap_Ok_total (fun t => rmap (fun a => c <- commit_capacity eng days t a ;;
        Ok (t, a, c)) alphas) ts) as [ls ->]; [|by eexists].
    intros t _. apply rmap_Ok_total. intros a Ha. rewrite Forall_forall in Hall.
    destruct (Hall a Ha). destruct (proj1 (commit_capacity_cases eng days t a mv Hm) H0 H1) as [c ->].
    by eexists.
  - intros Hts Hex. destruct ts as [|t ts]; [done|]. cbn.
    replace (rmap _ alphas) with (@Err ForecastError (list (nat * Q * Q)) InvalidParameter); [done|].
    symmetry. apply rmap_Err_of.
    + intros a _. destruct (Qlt_le_dec 0 a) as [H0|H0]; [destruct (Qlt_le_dec a 1) as [H1|H1]|].
      * left. destruct (proj1 (commit_capacity_cases eng days t a mv Hm) H0 H1) as [c ->].
        by eexists.
      * right. rewrite (proj2 (commit_capacity_cases eng days t a mv Hm)); [done|by right].
      * right. rewrite (proj2 (commit_capacity_cases eng days t a mv Hm)); [done|by left].
    + apply Exists_exists in Hex as (a & Ha & Hbad). exists a. split; [exact Ha|].
      by rewrite (proj2 (commit_capacity_cases eng days t a mv Hm)).
Qed.

Lemma report_success_Forall2 ts w achieved rows :
  report_success eng days ts w achieved = Ok rows ->
  Forall2 (fun t row => row = (t, achieved_at achieved t, w, row.2) /\
                        probability_of_success eng days t w (achieved_at achieved t) = Ok row.2)
          ts rows.
Proof.
  unfold report_success. intros Hr. apply rmap_Ok_iff in Hr.
  eapply Forall2_impl; [exact Hr|]. intros t row Hrow.
  apply rbind_Ok in Hrow as (p & Hp & [= <-]). done.
Qed.

(** C33: the success report has one row per [t], in order, carrying [t],
    [achieved.get(t, 0.0)], the workload and that call's probability. *)
Theorem report_success_rows ts w achieved rows :
  report_success eng days ts w achieved = Ok rows ->
  Forall2 (fun t row => row = (t, achieved_at achieved t, w, row.2) /\
                        probability_of_success eng days t w (achieved_at achieved t) = Ok row.2)
          ts rows.
Proof. apply report_success_Forall2. Qed.

End Reports.

(** ** What the script computes *)

Lemma lift_Ok {A} (m : fresult A) a : lift m = Ok a -> m = Ok a.
Proof. by destruct m; [intros [= ->]|]. Qed.

(** The script's steps, when it runs to the end. *)
Lemma quickstart_Ok `{MathLib} r :
  quickstart = Ok r ->
  exists os b d days mv,
    qs_obs = Ok os /\ qs_bias os = Ok b /\ qs_delta_b os b = Ok d /\ qs_days = Ok days /\
    daily_schedule_moments (qs_engine b d) days = Ok mv /\
    report_commit (qs_engine b d) days [0; 1; 2]%nat [0.10; 0.20; 0.05] = Ok (rep_commit r) /\
    report_success (qs_engine b d) days [0; 1]%nat 20.0 [(0%nat, 0.0); (1%nat, 13.0)]
      = Ok (rep_success r).
Proof.
  unfold quickstart. intros Hq.
  repeat match goal with
  | H : rbind _ _ = Ok _ |- _ => apply rbind_Ok in H as (? & ? & H)
  | H : lift _ = Ok _ |- _ => apply lift_Ok in H
  end.
  destruct (qs_summary _ _ _) as [[[[a1 a2] d'] m] v].
  repeat match goal with
  | H : rbind _ _ = Ok _ |- _ => apply rbind_Ok in H as (? & ? & H)
  | H : lift _ = Ok _ |- _ => apply lift_Ok in H
  end.
  injection Hq as <-. do 5 eexists. split_and!; eassumption.
Qed.

(** The script's observations: six of them, the fourth without a
    triad; five take part in the coverage of [fit_delta_b], and all three
    of e2's, the fourth included, in its bias. *)
Theorem quickstart_obs_triads :
  exists os, qs_obs = Ok os /\ length os = 6%nat /\
    length (with_triads os) = 5%nat /\ length (obs_of "e2" os) = 3%nat.
Proof. eexists. split_and!; reflexivity. Qed.

(** C1: the uncertainty factor the script fits meets the contract of
    [fit_delta_b] for its target 0.9, whatever the numerical library: it
    lies in [[0, 10]], reaches 90% coverage, and no factor smaller by more
    than [1e-6] does. *)
Theorem quickstart_delta_b_contract `{MathLib} os b d :
  qs_obs = Ok os -> qs_bias os = Ok b -> qs_delta_b os b = Ok d ->
  delta_b_spec (reaches qs_cal b 0.9 os) 10 (1 # 1000000) d.
Proof.
  intros Hos Hb Hd. vm_compute in Hos. injection Hos as <-.
  apply (fit_delta_b_contract qs_cal _ b 0.9 d); [solve_obs_triads_wf|qcompute ..|exact Hd].
Qed.

(** The script's two days, for every numerical library and every
    uncertainty factor [d]: their means and variances in closed form. *)
Lemma qs_moments_eq `{MathLib} os b d days mus vars :
  qs_obs = Ok os -> qs_bias os = Ok b -> qs_days = Ok days ->
  daily_schedule_moments (qs_engine b d) days = Ok (mus, vars) ->
  let w := (1 + d) * (1 + d) in
  exists m1 m2 v1 v2, mus = [m1; m2] /\ vars = [v1; v2] /\
    m1 == 65109 # 4000 /\ m2 == 849901 # 57600 /\
    v1 == (79781 # 280000) * w + (17901 # 44800) * w
          + 2 * 0.25 * sd_of ((79781 # 280000) * w) * sd_of ((17901 # 44800) * w) /\
    v2 == (2511 # 8000) * w + (8959 # 20480) * w.
Proof.
  intros Hos Hb Hd Hm w. vm_compute in Hos. injection Hos as <-.
  vm_compute in Hb. injection Hb as <-. vm_compute in Hd. injection Hd as <-.
  unfold daily_schedule_moments in Hm.
  cbn -[Qplus Qmult Qdiv Qminus Qopp Qinv sd_of mean variance qsum Qred] in Hm.
  injection Hm as <- <-. do 4 eexists.
  split_and!; [reflexivity|reflexivity|reflexivity|reflexivity| |];
    unfold w, variance, build_distribution, pair_term;
    cbn [dist_triad dist_shape dist_delta_b fst snd]; set (W := (1 + d) * (1 + d)).
  - replace (corr_for _ "e1" "e2") with 0.25 by reflexivity.
    assert (V1 : pert_var0 {| optimistic := 0.8; most_likely := 1.0; pessimistic := 1.3 |}
                   (cal_shape qs_cal) == 221 # 25200) by reflexivity.
    assert (V2 : pert_var0 {| optimistic := 0.7; most_likely := 0.9; pessimistic := 1.2 |}
                   (cal_shape qs_cal) == 221 # 25200) by reflexivity.
    assert (A1 : 6.0 * 0.95 * (6.0 * 0.95) * ((221 # 25200) * W) == (79781 # 280000) * W) by ring.
    assert (A2 : 7.5 * 0.90 * (7.5 * 0.90) * ((221 # 25200) * W) == (17901 # 44800) * W) by ring.
    rewrite V1, V2, A1, A2. ring.
  - replace (corr_for _ "e1" "e2") with 0 by reflexivity.
    assert (V1 : pert_var0 {| optimistic := 0.7; most_likely := 0.95; pessimistic := 1.25 |}
                   (cal_shape qs_cal) == 31 # 2880) by reflexivity.
    assert (V2 : pert_var0 {| optimistic := 0.65; most_likely := 0.9; pessimistic := 1.2 |}
                   (cal_shape qs_cal) == 31 # 2880) by reflexivity.
    assert (A1 : 6.0 * 0.90 * (6.0 * 0.90) * ((31 # 2880) * W) == (2511 # 8000) * W) by ring.
    assert (A2 : 7.5 * 0.85 * (7.5 * 0.85) * ((31 # 2880) * W) == (8959 # 20480) * W) by ring.
    rewrite V1, V2, A1, A2. ring.
Qed.

(** C3: the spec's two-day fixture, day 1, for every numerical library and
    every uncertainty factor [d]: the mean is
    [5.7 * 1.925 * mean0(0.8, 1.0, 1.3) + 6.75 * (149/180) *
    mean0(0.7, 0.9, 1.2) = 65109/4000]; the variance is
    [v1 + v2 + 2 * 0.25 * sd(v1) * sd(v2)] with
    [v1 = 5.7^2 * var0(0.8, 1.0, 1.3) * (1 + d)^2] and
    [v2 = 6.75^2 * var0(0.7, 0.9, 1.2) * (1 + d)^2], the correlation 0.25
    being found under the key ("e1", "e2"). *)
Theorem quickstart_day1 `{MathLib} os b d days mus vars :
  qs_obs = Ok os -> qs_bias os = Ok b -> qs_days = Ok days ->
  daily_schedule_moments (qs_engine b d) days = Ok (mus, vars) ->
  let w := (1 + d) * (1 + d) in
  exists m v, head mus = Some m /\ head vars = Some v /\ m == 65109 # 4000 /\
    v == (79781 # 280000) * w + (17901 # 44800) * w
         + 2 * 0.25 * sd_of ((79781 # 280000) * w) * sd_of ((17901 # 44800) * w).
Proof.
  intros Hos Hb Hd Hm w.
  destruct (qs_moments_eq os b d days mus vars Hos Hb Hd Hm) as (m1 & m2 & v1 & v2 & -> & -> & E).
  exists m1, v1. tauto.
Qed.

(** C23: day 2 of the fixture has no correlation dict: for every numerical
    library and every [d] its mean is
    [5.4 * 1.925 * mean0(0.7, 0.95, 1.25) + 6.375 * (149/180) *
    mean0(0.65, 0.9, 1.2) = 849901/57600] and its variance the plain sum
    [5.4^2 * var0(0.7, 0.95, 1.25) * (1 + d)^2 +
    6.375^2 * var0(0.65, 0.9, 1.2) * (1 + d)^2], with no cross term. *)
Theorem quickstart_day2 `{MathLib} os b d days mus vars :
  qs_obs = Ok os -> qs_bias os = Ok b -> qs_days = Ok days ->
  daily_schedule_moments (qs_engine b d) days = Ok (mus, vars) ->
  let w := (1 + d) * (1 + d) in
  exists m v, mus !! 1%nat = Some m /\ vars !! 1%nat = Some v /\ m == 849901 # 57600 /\
    v == (2511 # 8000) * w + (8959 # 20480) * w.
Proof.
  intros Hos Hb Hd Hm w.
  destruct (qs_moments_eq os b d days mus vars Hos Hb Hd Hm) as (m1 & m2 & v1 & v2 & -> & -> & E).
  exists m2, v2. tauto.
Qed.

(** C31: whatever the numerical library, the script's commit rows for
    [t = 0] are all exactly 0. *)
Theorem quickstart_commit_t0 `{MathLib} r :
  quickstart = Ok r -> Forall (fun row => row.1.1 = 0%nat -> row.2 == 0) (rep_commit r).
Proof.
  intros (os & b & d & days & mv & _ & _ & _ & _ & _ & Hc & _)%quickstart_Ok.
  destruct (report_commit_Forall2 _ _ _ _ _ Hc) as [_ HF].
  eapply Forall2_Forall_r; [exact HF|]. apply Forall_true.
  intros ta row (E & _ & Hcap) Ht. rewrite Ht in E. rewrite <- E in Hcap.
  exact (commit_capacity_t0_value _ _ _ _ Hcap).
Qed.

(** ** The script run with the coarse library *)

Definition qs_run_obs : list BiasObservation := Eval vm_compute in ok_or [] qs_obs.

Definition qs_run_bias : BiasModel :=
  Eval vm_compute in ok_or {| alphas := ∅ |} (qs_bias qs_run_obs).

Definition qs_run_delta : Q :=
  Eval vm_compute in ok_or 0 (qs_delta_b (H:=coarse_math) qs_run_obs qs_run_bias).

Definition qs_run_triad : ThreePointEstimate :=
  Eval vm_compute in ok_or {| optimistic := 0; most_likely := 0; pessimistic := 0 |} qs_triad.

Definition qs_run_days : list DailyInputs := Eval vm_compute in ok_or [] qs_days.

Definition qs_run_engine : CommitCapacityEngine := qs_engine qs_run_bias qs_run_delta.

Definition qs_run_mv : list Q * list Q :=
  Eval vm_compute in ok_or ([], [])
    (daily_schedule_moments (H:=coarse_math) qs_run_engine qs_run_days).

Definition qs_run : Report :=
  Eval vm_compute in
    match quickstart (H:=coarse_math) with
    | Ok r => r
    | Err _ => {| rep_alpha_e1 := 0; rep_alpha_e2 := 0; rep_delta_b := 0; rep_mean := 0;
                  rep_var := 0; rep_days := []; rep_commit := []; rep_success := [] |}
    end.

Lemma day_lines_spec_witness :
  length (rep_days qs_run) = length (zip qs_run_mv.1 qs_run_mv.2) /\
  forall i m v, zip qs_run_mv.1 qs_run_mv.2 !! i = Some (m, v) ->
    rep_days qs_run !! i = Some ((1 + i)%nat, m, v, coarse_sqrt v).
Proof. apply (day_lines_spec (H:=coarse_math)). vm_compute. reflexivity. Defined.

Lemma report_commit_rows_witness :
  length (rep_commit qs_run) = (length [0; 1; 2]%nat * length [0.10; 0.20; 0.05]%Q)%nat /\
  Forall2 (fun ta row => row.1.1 = ta.1 /\ row.1.2 = ta.2 /\
             commit_capacity (H:=coarse_math) qs_run_engine qs_run_days ta.1 ta.2 = Ok row.2)
          (list_prod [0; 1; 2]%nat [0.10; 0.20; 0.05]) (rep_commit qs_run).
Proof. apply (report_commit_rows (H:=coarse_math)). vm_compute. reflexivity. Defined.

Lemma report_commit_outcome_witness :
  (Forall (fun a => 0 < a /\ a < 1) [0.10; 0.20; 0.05] ->
   exists rows, report_commit (H:=coarse_math) qs_run_engine qs_run_days [0; 1; 2]%nat
                  [0.10; 0.20; 0.05] = Ok rows) /\
  ([0%nat] <> [] -> Exists (fun a => a <= 0 \/ 1 <= a) [0.10; 1.5] ->
   report_commit (H:=coarse_math) qs_run_engine qs_run_days [0%nat] [0.10; 1.5]
   = Err InvalidParameter).
Proof.
  split; [apply (report_commit_outcome (H:=coarse_math) _ _ _ _ qs_run_mv)
         |apply (report_commit_outcome (H:=coarse_math) _ _ _ _ qs_run_mv)];
  vm_compute; reflexivity.
Defined.

Lemma report_success_rows_witness :
  Forall2 (fun t row => row = (t, achieved_at [(0%nat, 0.0); (1%nat, 13.0)] t, 20.0, row.2) /\
             probability_of_success (H:=coarse_math) qs_run_engine qs_run_days t 20.0
               (achieved_at [(0%nat, 0.0); (1%nat, 13.0)] t) = Ok row.2)
          [0; 1]%nat (rep_success qs_run).
Proof. apply (report_success_rows (H:=coarse_math)). vm_compute. reflexivity. Defined.

Lemma quickstart_delta_b_contract_witness :
  delta_b_spec (reaches (H:=coarse_math) qs_cal qs_run_bias 0.9 qs_run_obs) 10 (1 # 1000000)
    qs_run_delta.
Proof. apply (@quickstart_delta_b_contract coarse_math); vm_compute; reflexivity. Defined.

Lemma quickstart_day1_witness :
  let w := (1 + qs_run_delta) * (1 + qs_run_delta) in
  exists m v, head qs_run_mv.1 = Some m /\ head qs_run_mv.2 = Some v /\ m == 65109 # 4000 /\
    v == (79781 # 280000) * w + (17901 # 44800) * w
         + 2 * 0.25 * coarse_sqrt (clamp0 ((79781 # 280000) * w))
           * coarse_sqrt (clamp0 ((17901 # 44800) * w)).
Proof.
  apply (@quickstart_day1 coarse_math qs_run_obs qs_run_bias qs_run_delta qs_run_days);
  vm_compute; reflexivity.
Defined.

Lemma quickstart_commit_t0_witness :
  Forall (fun row => row.1.1 = 0%nat -> row.2 == 0) (rep_commit qs_run).
Proof. apply (@quickstart_commit_t0 coarse_math). vm_compute. reflexivity. Defined.

Lemma zip_neg_snd (mus vars : list Q) :
  Forall (Qle 0) vars -> Exists (fun mv : Q * Q => mv.2 < 0) (zip mus vars) -> False.
Proof.
  rewrite Forall_forall. intros Hv ([m v] & Hin & Hneg)%Exists_exists.
  apply elem_of_zip_r, Hv in Hin. cbn in Hneg. lra.
Qed.

Lemma qs_reports_ok `{MathLib} b d days :
  qs_days = Ok days ->
  exists mv cls sls, daily_schedule_moments (qs_engine b d) days = Ok mv /\
    report_commit (qs_engine b d) days [0; 1; 2]%nat [0.10; 0.20; 0.05] = Ok cls /\
    report_success (qs_engine b d) days [0; 1]%nat 20.0 [(0%nat, 0.0); (1%nat, 13.0)] = Ok sls.
Proof.
  intros Hd. assert (Hdims : forallb dims_ok days = true).
  { vm_compute in Hd. injection Hd as <-. reflexivity. }
  destruct (daily_moments_ok (qs_engine b d) days Hdims) as [mv Hm].
  unfold report_commit, report_success.
  destruct (rmap_Ok_total (fun t => rmap (fun a => c <- commit_capacity (qs_engine b d) days t a ;;
      Ok (t, a, c)) [0.10; 0.20; 0.05]) [0; 1; 2]%nat) as [ls Hls].
  { intros t _. apply rmap_Ok_total. intros a Ha.
    assert (0 < a /\ a < 1) as [H0 H1].
    { repeat (apply elem_of_cons in Ha as [->|Ha]; [split; qcompute|]). by apply elem_of_nil in Ha. }
    destruct (proj1 (commit_capacity_cases _ _ t a mv Hm) H0 H1) as [c ->]. by eexists. }
  destruct (rmap_Ok_total (fun t => let a := achieved_at [(0%nat, 0.0); (1%nat, 13.0)] t in
      p <- probability_of_success (qs_engine b d) days t 20.0 a ;; Ok (t, a, 20.0, p)) [0; 1]%nat)
    as [sls Hsls].
  { intros t _. destruct (probability_total _ _ t 20.0 (achieved_at [(0%nat, 0.0); (1%nat, 13.0)] t)
      mv Hm ltac:(qcompute)) as [p Hp]. cbn zeta. rewrite Hp. by eexists. }
  exists mv, (concat ls), sls. rewrite Hls. done.
Qed.

(** C25: whatever the numerical library, the bias model and the
    uncertainty factor, the script's days are computed (line 56) and both
    reports are printed to the end (lines 98 and 102): the days name the
    same engineers in their three dicts, every [alpha] lies in [(0, 1)] and
    the workload is not negative. *)
Theorem quickstart_reports_total `{MathLib} b d days :
  qs_days = Ok days ->
  exists mv cls sls, daily_schedule_moments (qs_engine b d) days = Ok mv /\
    report_commit (qs_engine b d) days [0; 1; 2]%nat [0.10; 0.20; 0.05] = Ok cls /\
    report_success (qs_engine b d) days [0; 1]%nat 20.0 [(0%nat, 0.0); (1%nat, 13.0)] = Ok sls.
Proof. apply qs_reports_ok. Qed.

(** On the script's days the day loop prints a line per day and raises
    nothing, whatever the bias and the factor. *)
Lemma qs_day_lines_ok `{MathLib} b d days mus vars :
  qs_days = Ok days -> daily_schedule_moments (qs_engine b d) days = Ok (mus, vars) ->
  exists dls, day_lines 1 (zip mus vars) = Ok dls /\ length dls = 2%nat.
Proof.
  intros Hd Hm. destruct (day_lines 1 (zip mus vars)) as [dls|e] eqn:Edl.
  - exists dls. split; [done|]. destruct (day_lines_lines _ _ _ Edl) as [-> _].
    destruct (daily_moments_length _ _ _ _ Hm) as [Hmu Hv].
    vm_compute in Hd. injection Hd as <-. rewrite length_zip, Hmu, Hv. done.
  - exfalso. apply day_lines_Err in Edl as [_ Hex].
    vm_compute in Hd. injection Hd as <-.
    refine (zip_neg_snd _ _ (daily_moments_vars_nonneg (qs_engine b d) _ mus vars _ _ Hm) Hex);
      [qcompute|reflexivity].
Qed.

(** Once line 25 returns a factor, every later statement of the script
    (line 38 apart) completes: two day lines, nine commit rows and two
    success rows. *)
Lemma quickstart_Ok_of_delta_b `{MathLib} os b d :
  qs_obs = Ok os -> qs_bias os = Ok b -> qs_delta_b os b = Ok d ->
  exists r, quickstart = Ok r /\ rep_delta_b r = d /\ length (rep_days r) = 2%nat /\
    length (rep_commit r) = 9%nat /\ length (rep_success r) = 2%nat.
Proof.
  intros Hos Hb Hd. unfold quickstart. rewrite Hos. cbn [rbind lift]. rewrite Hb. cbn [rbind lift].
  rewrite Hd. cbn [rbind lift].
  destruct qs_triad as [t|] eqn:Et; [|vm_compute in Et; discriminate]. cbn [rbind lift].
  destruct qs_days as [days|] eqn:Edays; [|vm_compute in Edays; discriminate].
  destruct (qs_reports_ok b d days Edays) as ([mus vars] & cls & sls & Hm & Hc & Hs).
  destruct (qs_day_lines_ok b d days mus vars Edays Hm) as (dls & Hdl & Hlen).
  unfold qs_summary. cbn [rbind lift]. rewrite Hm. cbn [rbind lift fst snd]. rewrite Hdl.
  cbn [rbind lift]. rewrite Hc, Hs. cbn [rbind lift]. eexists. split; [reflexivity|].
  cbn. split_and!; [done|done| |].
  - destruct (report_commit_Forall2 _ _ _ _ _ Hc) as [-> _]. done.
  - pose proof (Forall2_length _ _ _ (report_success_Forall2 _ _ _ _ _ _ Hs)) as L. by rewrite <- L.
Qed.

(** C5: whatever the numerical library, the script never raises
    [ValueError] at line 58: its triads are valid and its only correlation
    (0.25) is non-negative, so no daily variance is negative. *)
Theorem quickstart_no_domain_error `{MathLib} : quickstart <> Err MathDomainError.
Proof.
  unfold quickstart.
  destruct qs_obs as [os|]; cbn [rbind lift]; [|discriminate].
  destruct (qs_bias os) as [b|]; cbn [rbind lift]; [|discriminate].
  destruct (qs_delta_b os b) as [d|]; cbn [rbind lift]; [|discriminate].
  destruct qs_triad as [t|]; cbn [rbind lift]; [|discriminate].
  destruct (qs_summary _ _ _) as [[[[a1 a2] d'] m] v].
  destruct qs_days as [days|] eqn:Edays; cbn [rbind lift]; [|discriminate].
  destruct (daily_schedule_moments _ days) as [[mus vars]|] eqn:Em; cbn [rbind lift]; [|discriminate].
  destruct (day_lines 1 _) as [dls|e] eqn:Edl; cbn [rbind lift fst snd].
  - destruct (report_commit _ _ _ _); cbn [rbind lift]; [|discriminate].
    destruct (report_success _ _ _ _ _); cbn [rbind lift]; discriminate.
  - intros _. destruct (qs_day_lines_ok b d days mus vars Edays Em) as (dls & Hok & _).
    cbn [fst snd] in Edl. congruence.
Qed.

Lemma quickstart_no_domain_error_witness : quickstart (H:=coarse_math) <> Err MathDomainError.
Proof. apply (@quickstart_no_domain_error coarse_math). Defined.

Lemma quickstart_day2_witness :
  let w := (1 + qs_run_delta) * (1 + qs_run_delta) in
  exists m v, qs_run_mv.1 !! 1%nat = Some m /\ qs_run_mv.2 !! 1%nat = Some v /\
    m == 849901 # 57600 /\ v == (2511 # 8000) * w + (8959 # 20480) * w.
Proof.
  apply (@quickstart_day2 coarse_math qs_run_obs qs_run_bias qs_run_delta qs_run_days);
  vm_compute; reflexivity.
Defined.

Lemma quickstart_reports_total_witness :
  exists mv cls sls, daily_schedule_moments (H:=coarse_math) qs_run_engine qs_run_days = Ok mv /\
    report_commit (H:=coarse_math) qs_run_engine qs_run_days [0; 1; 2]%nat [0.10; 0.20; 0.05]
      = Ok cls /\
    report_success (H:=coarse_math) qs_run_engine qs_run_days [0; 1]%nat 20.0
      [(0%nat, 0.0); (1%nat, 13.0)] = Ok sls.
Proof. apply (@quickstart_reports_total coarse_math). vm_compute. reflexivity. Defined.

(** C9: whatever the numerical library, the script's two success rows are
    the normal survival at the remaining workload: at [t = 0] nothing is
    achieved ([achieved.get(0, 0.0) = 0.0]) and both days count, at
    [t = 1] 13 hours are achieved and only day 2 counts. *)
Theorem quickstart_success_values `{MathLib} r :
  quickstart = Ok r ->
  exists b d days mus vars,
    daily_schedule_moments (qs_engine b d) days = Ok (mus, vars) /\
    rep_success r =
      [(0%nat, 0.0, 20.0, normal_sf (20.0 - 0.0) (qsum (drop 0 mus)) (sd_of (qsum (drop 0 vars))));
       (1%nat, 13.0, 20.0, normal_sf (20.0 - 13.0) (qsum (drop 1 mus)) (sd_of (qsum (drop 1 vars))))].
Proof.
  intros (os & b & d & days & [mus vars] & _ & _ & _ & Hd & Hm & _ & Hs)%quickstart_Ok.
  exists b, d, days, mus, vars. split; [done|].
  vm_compute in Hd. injection Hd as <-.
  unfold report_success, probability_of_success in Hs. rewrite Hm in Hs.
  cbn -[normal_sf qsum sd_of drop Qminus qle] in Hs.
  replace (qle (20.0 - 0.0) 0) with false in Hs by reflexivity.
  replace (qle (20.0 - 13.0) 0) with false in Hs by reflexivity.
  cbn -[normal_sf qsum sd_of drop Qminus qle] in Hs. by injection Hs as <-.
Qed.

Lemma quickstart_success_values_witness :
  exists b d days mus vars,
    daily_schedule_moments (H:=coarse_math) (qs_engine b d) days = Ok (mus, vars) /\
    rep_success qs_run =
      [(0%nat, 0.0, 20.0, normal_sf (H:=coarse_math) (20.0 - 0.0) (qsum (drop 0 mus))
                            (sd_of (H:=coarse_math) (qsum (drop 0 vars))));
       (1%nat, 13.0, 20.0, normal_sf (H:=coarse_math) (20.0 - 13.0) (qsum (drop 1 mus))
                            (sd_of (H:=coarse_math) (qsum (drop 1 vars))))].
Proof. apply (@quickstart_success_values coarse_math). vm_compute. reflexivity. Defined.

(** C17: whatever the numerical library, the engine the script builds on
    line 27 satisfies [engine_wf] (positive biases, a factor in [[0, 10]],
    shape 4) and the distribution of line 30 is well formed: all six
    observed efforts are positive and the triads valid. *)
Theorem quickstart_engine_wf `{MathLib} os b d t :
  qs_obs = Ok os -> qs_bias os = Ok b -> qs_delta_b os b = Ok d -> qs_triad = Ok t ->
  engine_wf (qs_engine b d) /\ dist_wf (qs_dist t b d).
Proof.
  intros Hos Hb Hd Htr.
  assert (Hact : Forall (fun o => 0 < actual_hours o) os /\ obs_triads_wf os).
  { vm_compute in Hos. injection Hos as <-. split; [|solve_obs_triads_wf].
    apply Forall_forall. intros o Ho.
    repeat (apply elem_of_cons in Ho as [->|Ho]; [qcompute|]). by apply elem_of_nil in Ho. }
  destruct Hact as [Hact Hwf].
  destruct (fitted_engine_wf qs_cal os 0.9 b d Hact Hwf) as [Hw Hdist];
    [qcompute .. | exact Hb | exact Hd |].
  split; [exact Hw|]. exact (Hdist t "e1" (make_triad_wf _ _ _ _ Htr)).
Qed.

Lemma quickstart_engine_wf_witness :
  engine_wf qs_run_engine /\ dist_wf (qs_dist qs_run_triad qs_run_bias qs_run_delta).
Proof.
  apply (@quickstart_engine_wf coarse_math qs_run_obs); vm_compute; reflexivity.
Defined.


(** ** The script's outcome and its coverage fit *)

(** C7: whatever the numerical library, the only exception the script
    raises (line 38, not modelled, apart) is [ConvergenceFailure] from
    line 25, and it raises it exactly when neither factor 0 nor the top of
    the search range, 10, reaches 90% coverage of its observations. *)
Theorem quickstart_errors `{MathLib} os b e :
  qs_obs = Ok os -> qs_bias os = Ok b ->
  quickstart = Err e <->
  e = Forecast ConvergenceFailure /\ coverage qs_cal b 0.9 os 0 < 0.9 /\
  coverage qs_cal b 0.9 os 10 < 0.9.
Proof.
  intros Hos Hb. destruct (qs_delta_b os b) as [d|e'] eqn:Hd.
  - destruct (quickstart_Ok_of_delta_b os b d Hos Hb Hd) as (r & -> & _).
    split; [discriminate|]. intros (_ & H0 & H1). unfold qs_delta_b in Hd.
    rewrite (proj2 (fit_delta_b_Err qs_cal os b 0.9 ConvergenceFailure) (conj eq_refl (conj H0 H1)))
      in Hd. discriminate.
  - pose proof Hd as Hd'. unfold qs_delta_b in Hd'. apply fit_delta_b_Err in Hd' as (-> & H0 & H1).
    unfold quickstart. rewrite Hos. cbn [rbind lift]. rewrite Hb. cbn [rbind lift].
    rewrite Hd. cbn [rbind lift]. split; [intros [= <-]; done|intros (-> & _); reflexivity].
Qed.

(** C21: whatever the numerical library, once line 25 returns a factor the
    rest of the modelled script runs to its end: it prints that factor,
    two day lines, nine commit rows and two success rows.  Line 38 is not
    part of the model; by [beta_params_pos_iff] it can draw only when the
    factor is below [sqrt 7 - 1]. *)
Theorem quickstart_completes `{MathLib} os b d :
  qs_obs = Ok os -> qs_bias os = Ok b -> qs_delta_b os b = Ok d ->
  exists r, quickstart = Ok r /\ rep_delta_b r = d /\ length (rep_days r) = 2%nat /\
    length (rep_commit r) = 9%nat /\ length (rep_success r) = 2%nat.
Proof. apply quickstart_Ok_of_delta_b. Qed.

(** C13: whatever the numerical library, the target 0.9 on the script's
    five triad observations asks for all of them: at the fitted factor
    every one of the five lies in its central interval (4 of 5 would be
    only 80%). *)
Theorem quickstart_all_covered `{MathLib} os b d :
  qs_obs = Ok os -> qs_bias os = Ok b -> qs_delta_b os b = Ok d ->
  length (with_triads os) = 5%nat /\
  Forall (fun to => covered qs_cal b (z_two_sided 0.9) d to = true) (with_triads os).
Proof.
  intros Hos Hb Hd.
  assert (Hwf : obs_triads_wf os)
    by (vm_compute in Hos; injection Hos as <-; solve_obs_triads_wf).
  destruct (fit_delta_b_contract qs_cal os b 0.9 d Hwf
              ltac:(qcompute) ltac:(qcompute) ltac:(qcompute) ltac:(qcompute) ltac:(qcompute) Hd)
    as (_ & Hok & _).
  vm_compute in Hos. injection Hos as <-. split; [reflexivity|].
  apply reaches_all_covered in Hok; [exact Hok|by vm_compute|qcompute|qcompute].
Qed.

(** C15: whatever the numerical library, the script's factor is 0 exactly
    when all five triad observations already lie in their intervals
    without widening; otherwise it is positive. *)
Theorem quickstart_delta_b_zero_iff `{MathLib} os b d :
  qs_obs = Ok os -> qs_bias os = Ok b -> qs_delta_b os b = Ok d ->
  d == 0 <-> Forall (fun to => covered qs_cal b (z_two_sided 0.9) 0 to = true) (with_triads os).
Proof.
  intros Hos Hb Hd. vm_compute in Hos. injection Hos as <-.
  rewrite (fit_delta_b_zero qs_cal _ b 0.9 d ltac:(qcompute) Hd).
  apply reaches_all_covered; [by vm_compute|qcompute|qcompute].
Qed.

(** C19: the fourth observation, which has no triad, counts in e2's bias
    but not in the factor: whatever the numerical library, line 25 gives
    the same result without it, while e2's bias without it differs
    ([(2.5/3 + 5.1/6) / 2] instead of [149/180]). *)
Theorem quickstart_untriaded_obs `{MathLib} os b b' :
  qs_obs = Ok os -> qs_bias os = Ok b -> fit_bias (delete 3%nat os) = Ok b' ->
  qs_delta_b os b = fit_delta_b qs_cal (delete 3%nat os) b 0.9 /\
  ~ alpha_for b "e2" == alpha_for b' "e2".
Proof.
  intros Hos Hb Hb'. vm_compute in Hos. injection Hos as <-.
  vm_compute in Hb. injection Hb as <-. vm_compute in Hb'. injection Hb' as <-.
  split; [symmetry; by apply fit_delta_b_with_triads|vm_compute; discriminate].
Qed.

Definition qs_run_bias_without_4th : BiasModel :=
  Eval vm_compute in ok_or {| alphas := ∅ |} (fit_bias (delete 3%nat qs_run_obs)).

Lemma quickstart_errors_witness :
  quickstart (H:=coarse_math) = Err (Forecast ConvergenceFailure) <->
  Forecast ConvergenceFailure = Forecast ConvergenceFailure /\
  coverage (H:=coarse_math) qs_cal qs_run_bias 0.9 qs_run_obs 0 < 0.9 /\
  coverage (H:=coarse_math) qs_cal qs_run_bias 0.9 qs_run_obs 10 < 0.9.
Proof. apply (@quickstart_errors coarse_math); vm_compute; reflexivity. Defined.

Lemma quickstart_completes_witness :
  exists r, quickstart (H:=coarse_math) = Ok r /\ rep_delta_b r = qs_run_delta /\
    length (rep_days r) = 2%nat /\ length (rep_commit r) = 9%nat /\ length (rep_success r) = 2%nat.
Proof. apply (@quickstart_completes coarse_math qs_run_obs qs_run_bias); vm_compute; reflexivity. Defined.

Lemma quickstart_all_covered_witness :
  length (with_triads qs_run_obs) = 5%nat /\
  Forall (fun to => covered (H:=coarse_math) qs_cal qs_run_bias (z_two_sided (H:=coarse_math) 0.9)
                      qs_run_delta to = true) (with_triads qs_run_obs).
Proof. apply (@quickstart_all_covered coarse_math qs_run_obs); vm_compute; reflexivity. Defined.

Lemma quickstart_delta_b_zero_iff_witness :
  qs_run_delta == 0 <->
  Forall (fun to => covered (H:=coarse_math) qs_cal qs_run_bias (z_two_sided (H:=coarse_math) 0.9)
                      0 to = true) (with_triads qs_run_obs).
Proof. apply (@quickstart_delta_b_zero_iff coarse_math qs_run_obs); vm_compute; reflexivity. Defined.

Lemma quickstart_untriaded_obs_witness :
  qs_delta_b (H:=coarse_math) qs_run_obs qs_run_bias =
  fit_delta_b (H:=coarse_math) qs_cal (delete 3%nat qs_run_obs) qs_run_bias 0.9 /\
  ~ alpha_for qs_run_bias "e2" == alpha_for qs_run_bias_without_4th "e2".
Proof. apply (@quickstart_untriaded_obs coarse_math); vm_compute; reflexivity. Defined.
